(** * folktables/acs.py: ACS PUMS data source and task definitions

    A shallow embedding of [src/folktables/acs.py].  Data frames are modelled
    row-major with an explicit index label per row; Python exceptions are an
    error type; [ACSDataSource.get_data] is a program in a state-and-exception
    monad over the instance, the local cache and a log of the calls made to
    the collaborators [load_acs] and [pd.merge]. *)

From Stdlib Require Import ZArith QArith List String Ascii Bool Lia.
From stdpp Require Import base option list strings gmap pretty.

(** ** Exceptions and fallible computations *)

Inductive exn : Type :=
  | ValueError (msg : string)
  | KeyError (key : string)
  | AssertionError (msg : option string)
  | OtherError (name msg : string).

Inductive result (A : Type) : Type :=
  | Ok (a : A)
  | Raise (e : exn).
Arguments Ok {A} a.
Arguments Raise {A} e.

#[global] Instance result_ret : MRet result := fun A a => Ok a.
#[global] Instance result_bind : MBind result := fun A B f m =>
  match m with
  | Ok a => f a
  | Raise e => Raise e
  end.

Definition is_ok {A} (r : result A) : bool :=
  match r with Ok _ => true | Raise _ => false end.

(** ** Cells, series and data frames *)

(** A cell of a PUMS table: an integer code or amount, or the missing-value
    marker (a blank field, read by pandas as NaN). *)
Inductive value : Type :=
  | VInt (z : Z)
  | VNaN.

#[global] Instance value_eq_dec : EqDecision value.
Proof. solve_decision. Defined.

(** Element-wise comparisons of a cell with a scalar, as pandas evaluates
    [series > k] and the like: every comparison with NaN is [False]. *)
Definition cell_gt (v : value) (k : Z) : bool :=
  match v with VInt z => (k <? z)%Z | VNaN => false end.
Definition cell_ge (v : value) (k : Z) : bool :=
  match v with VInt z => (k <=? z)%Z | VNaN => false end.
Definition cell_lt (v : value) (k : Z) : bool :=
  match v with VInt z => (z <? k)%Z | VNaN => false end.
Definition cell_le (v : value) (k : Z) : bool :=
  match v with VInt z => (z <=? k)%Z | VNaN => false end.
Definition cell_eq (v : value) (k : Z) : bool :=
  match v with VInt z => (z =? k)%Z | VNaN => false end.

Definition label : Type := Z.
Definition record : Type := (label * list value)%type.

(** A data frame: the column names, and the rows in order, each with its
    index label and its cells aligned with [columns]. *)
Record DataFrame : Type := mkDF {
  columns : list string;
  records : list record
}.

Definition index (df : DataFrame) : list label := map fst (records df).
Definition len (df : DataFrame) : nat := length (records df).

(** [Index.get_loc]: position of the first column called [c]. *)
Fixpoint get_loc (c : string) (cols : list string) : option nat :=
  match cols with
  | [] => None
  | c' :: cs => if decide (c = c') then Some 0 else S <$> get_loc c cs
  end.

Definition cell (i : nat) (r : record) : value := default VNaN (r.2 !! i).

(** [df[c]]: the cells of column [c], in row order; [KeyError] when the
    frame has no such column. *)
Definition getitem (df : DataFrame) (c : string) : result (list value) :=
  match get_loc c (columns df) with
  | Some i => Ok (map (cell i) (records df))
  | None => Raise (KeyError c)
  end.

Definition Series_gt (s : list value) (k : Z) : list bool := map (fun v => cell_gt v k) s.
Definition Series_ge (s : list value) (k : Z) : list bool := map (fun v => cell_ge v k) s.
Definition Series_lt (s : list value) (k : Z) : list bool := map (fun v => cell_lt v k) s.
Definition Series_le (s : list value) (k : Z) : list bool := map (fun v => cell_le v k) s.
Definition Series_eq (s : list value) (k : Z) : list bool := map (fun v => cell_eq v k) s.
Definition Series_or (a b : list bool) : list bool := zip_with orb a b.

Fixpoint select {A} (mask : list bool) (l : list A) : list A :=
  match mask, l with
  | b :: mask', x :: l' => if b then x :: select mask' l' else select mask' l'
  | _, _ => []
  end.

(** [df[mask]] and [df.loc[mask]] with a boolean mask computed from [df]
    itself (same index, so the selection is positional); a mask of another
    length is refused. *)
Definition getitem_mask (df : DataFrame) (mask : list bool) : result DataFrame :=
  if decide (length mask = len df)
  then Ok (mkDF (columns df) (select mask (records df)))
  else Raise (ValueError "Item wrong length").

(** [df.drop(labels)]: removes every row whose index label is listed;
    [KeyError] when a listed label is not in the index. *)
Definition DataFrame_drop (df : DataFrame) (labels : list label) : result DataFrame :=
  if forallb (fun l => bool_decide (l ∈ index df)) labels
  then Ok (mkDF (columns df)
             (List.filter (fun r => bool_decide (r.1 ∉ labels)) (records df)))
  else Raise (KeyError "not found in axis").

(** ** Row filters of the tasks *)

Definition adult_filter (data : DataFrame) : result DataFrame :=
  let df := data in
  df ← (s ← getitem df "AGEP"; getitem_mask df (Series_gt s 16));
  df ← (s ← getitem df "PINCP"; getitem_mask df (Series_gt s 100));
  df ← (s ← getitem df "WKHP"; getitem_mask df (Series_gt s 0));
  df ← (s ← getitem df "PWGTP"; getitem_mask df (Series_ge s 1));
  Ok df.

Definition public_coverage_filter (data : DataFrame) : result DataFrame :=
  let df := data in
  df ← (s ← getitem df "AGEP"; getitem_mask df (Series_lt s 65));
  df ← (s ← getitem df "PINCP"; getitem_mask df (Series_le s 30000));
  Ok df.

Definition travel_time_filter (data : DataFrame) : result DataFrame :=
  let df := data in
  df ← (s ← getitem df "AGEP"; getitem_mask df (Series_gt s 16));
  df ← (s ← getitem df "PWGTP"; getitem_mask df (Series_ge s 1));
  df ← (s ← getitem df "ESR"; getitem_mask df (Series_eq s 1));
  Ok df.

Definition employment_filter (data : DataFrame) : result DataFrame :=
  let df := data in
  df ← (s ← getitem df "AGEP"; getitem_mask df (Series_gt s 16));
  df ← (s ← getitem df "AGEP"; getitem_mask df (Series_lt s 90));
  df ← (s ← getitem df "PWGTP"; getitem_mask df (Series_ge s 1));
  Ok df.

(** The [preprocess] lambda of [ACSMobility]:
    [x.drop(x.loc[(x['AGEP'] <= 18) | (x['AGEP'] >= 35)].index)]. *)
Definition mobility_preprocess (x : DataFrame) : result DataFrame :=
  a ← getitem x "AGEP";
  b ← getitem x "AGEP";
  sel ← getitem_mask x (Series_or (Series_le a 18) (Series_ge b 35));
  DataFrame_drop x (index sel).

(** The [preprocess] lambda [lambda x: x]. *)
Definition identity_preprocess (x : DataFrame) : result DataFrame := Ok x.

(** ** Task definitions *)

(** The two [postprocess] values of the catalog: [preprocessing.scale], and
    [lambda x: preprocessing.scale(np.nan_to_num(x, -1))].  Both act on the
    floating-point feature matrix; they are kept as tags. *)
Inductive postprocess_fn : Type :=
  | scale
  | scale_nan_to_num.

(** The keyword arguments with which [acs.py] builds a
    [folktables.BasicProblem]. *)
Record BasicProblem : Type := mkProblem {
  feature_transforms : list (string * option (list value -> list value));
  target : string;
  target_transform : list value -> list bool;
  group : string;
  preprocess : DataFrame -> result DataFrame;
  postprocess : postprocess_fn
}.

Definition raw (cols : list string) : list (string * option (list value -> list value)) :=
  map (fun c => (c, None)) cols.

Definition ACSIncome : BasicProblem := {|
  feature_transforms :=
    raw ["AGEP"; "COW"; "SCHL"; "MAR"; "OCCP"; "POBP"; "RELP"; "WKHP"; "SEX"; "RAC1P"];
  target := "PINCP";
  target_transform := fun x => Series_gt x 50000;
  group := "RAC1P";
  preprocess := adult_filter;
  postprocess := scale
|}.

Definition ACSEmployment : BasicProblem := {|
  feature_transforms :=
    raw ["AGEP"; "SCHL"; "MAR"; "RELP"; "DIS"; "ESP"; "CIT"; "MIG"; "MIL"; "ANC";
         "NATIVITY"; "DEAR"; "DEYE"; "DREM"; "SEX"; "RAC1P"];
  target := "ESR";
  target_transform := fun x => Series_eq x 1;
  group := "RAC1P";
  preprocess := identity_preprocess;
  postprocess := scale_nan_to_num
|}.

Definition ACSHealthInsurance : BasicProblem := {|
  feature_transforms :=
    raw ["AGEP"; "SCHL"; "MAR"; "SEX"; "DIS"; "ESP"; "CIT"; "MIG"; "MIL"; "ANC";
         "NATIVITY"; "DEAR"; "DEYE"; "DREM"; "RACAIAN"; "RACASN"; "RACBLK";
         "RACNH"; "RACPI"; "RACSOR"; "RACWHT"; "PINCP"; "ESR"; "ST"; "FER"];
  target := "HINS2";
  target_transform := fun x => Series_eq x 1;
  group := "RAC1P";
  preprocess := identity_preprocess;
  postprocess := scale_nan_to_num
|}.

Definition ACSPublicCoverage : BasicProblem := {|
  feature_transforms :=
    raw ["AGEP"; "SCHL"; "MAR"; "SEX"; "DIS"; "ESP"; "CIT"; "MIG"; "MIL"; "ANC";
         "NATIVITY"; "DEAR"; "DEYE"; "DREM"; "PINCP"; "ESR"; "ST"; "FER"; "RAC1P"];
  target := "PUBCOV";
  target_transform := fun x => Series_eq x 1;
  group := "RAC1P";
  preprocess := public_coverage_filter;
  postprocess := scale_nan_to_num
|}.

Definition ACSTravelTime : BasicProblem := {|
  feature_transforms :=
    raw ["AGEP"; "SCHL"; "MAR"; "SEX"; "DIS"; "ESP"; "MIG"; "RELP"; "RAC1P"; "PUMA";
         "ST"; "CIT"; "OCCP"; "JWTR"; "POWPUMA"; "POVPIP"];
  target := "JWMNP";
  target_transform := fun x => Series_gt x 20;
  group := "RAC1P";
  preprocess := travel_time_filter;
  postprocess := scale_nan_to_num
|}.

Definition ACSMobility : BasicProblem := {|
  feature_transforms :=
    raw ["AGEP"; "SCHL"; "MAR"; "SEX"; "DIS"; "ESP"; "CIT"; "MIL"; "ANC"; "NATIVITY";
         "RELP"; "DEAR"; "DEYE"; "DREM"; "RAC1P"; "GCL"; "COW"; "ESR"; "WKHP";
         "JWMNP"; "PINCP"];
  target := "MIG";
  target_transform := fun x => Series_eq x 1;
  group := "RAC1P";
  preprocess := mobility_preprocess;
  postprocess := scale_nan_to_num
|}.

Definition ACSEmploymentFiltered : BasicProblem := {|
  feature_transforms :=
    raw ["AGEP"; "SCHL"; "MAR"; "SEX"; "DIS"; "ESP"; "MIG"; "CIT"; "MIL"; "ANC";
         "NATIVITY"; "RELP"; "DEAR"; "DEYE"; "DREM"; "RAC1P"; "GCL"];
  target := "ESR";
  target_transform := fun x => Series_eq x 1;
  group := "RAC1P";
  preprocess := employment_filter;
  postprocess := scale_nan_to_num
|}.

Definition ACSIncomePovertyRatio : BasicProblem := {|
  feature_transforms :=
    raw ["AGEP"; "SCHL"; "MAR"; "SEX"; "DIS"; "ESP"; "MIG"; "CIT"; "MIL"; "ANC";
         "NATIVITY"; "RELP"; "DEAR"; "DEYE"; "DREM"; "RAC1P"; "GCL"; "ESR"; "OCCP";
         "WKHP"];
  target := "POVPIP";
  target_transform := fun x => Series_lt x 250;
  group := "RAC1P";
  preprocess := identity_preprocess;
  postprocess := scale_nan_to_num
|}.

(** The task definitions exported by the module, in source order. *)
Definition catalog : list BasicProblem :=
  [ACSIncome; ACSEmployment; ACSHealthInsurance; ACSPublicCoverage;
   ACSTravelTime; ACSMobility; ACSEmploymentFiltered; ACSIncomePovertyRatio].

(** Modelled from the spec: [BasicProblem.features_and_target] lives in
    [folktables.py], which is not part of the sources at hand.  Step 2 of
    section 4.2: for each entry of the feature columns, in declared order,
    extract the named column from the filtered table (a named column absent
    from the table is a fatal error naming it) and apply the entry's
    transform when one is declared.  The result lists the columns of [X] in
    declared order. *)
Fixpoint extract_features (fts : list (string * option (list value -> list value)))
    (filtered : DataFrame) : result (list (list value)) :=
  match fts with
  | [] => Ok []
  | (c, transform) :: rest =>
      col ← getitem filtered c;
      cols ← extract_features rest filtered;
      Ok (match transform with Some f => f col | None => col end :: cols)
  end.

Section TaskDefinition.

(** What a [postprocess] value makes of the assembled feature columns: a
    floating-point matrix computed by sklearn and numpy, taken as a
    parameter. *)
Context {matrix : Type}.
Variable apply_postprocess : postprocess_fn -> list (list value) -> matrix.

(** Modelled from the spec: [BasicProblem.features_and_target] (in
    [folktables.py], not part of the sources at hand), steps 1 to 6 of
    section 4.2: apply [preprocess]; extract the feature columns; apply
    [postprocess] to the assembled [X]; extract the target column from the
    filtered table and apply [target_transform], yielding [y]; extract the
    group column from the filtered table unmodified, yielding [group]; return
    the three. *)
Definition features_and_target (p : BasicProblem) (table : DataFrame) :
    result (matrix * list bool * list value) :=
  filtered ← preprocess p table;
  X ← extract_features (feature_transforms p) filtered;
  let X := apply_postprocess (postprocess p) X in
  col ← getitem filtered (target p);
  let y := target_transform p col in
  group ← getitem filtered (group p);
  Ok (X, y, group).

End TaskDefinition.

(** ** The data source *)

(** The positions of the names [cs] among the columns, [None] when one of
    them is not a column. *)
Fixpoint get_locs (cs cols : list string) : option (list nat) :=
  match cs with
  | [] => Some []
  | c :: cs' =>
      match get_loc c cols with
      | Some i => rest ← get_locs cs' cols; Some (i :: rest)
      | None => None
      end
  end.

(** Python's [repr] of a string without quotes or escapes in it, and of a
    list of such strings. *)
Definition py_repr (s : string) : string := "'" +:+ s +:+ "'".

Definition py_repr_list (l : list string) : string :=
  "[" +:+ String.concat ", " (map py_repr l) +:+ "]".

(** The list without its repeated entries, first occurrences kept. *)
Fixpoint unique (l : list string) : list string :=
  match l with
  | [] => []
  | x :: l' => x :: List.filter (fun y => negb (bool_decide (y = x))) (unique l')
  end.

(** The [KeyError] pandas raises when a list of column names is not wholly
    found: when none is found it quotes the whole key, otherwise it lists the
    names that are missing. *)
Definition not_in_index (cs cols : list string) : exn :=
  let missing := List.filter (fun c => bool_decide (c ∉ cols)) cs in
  if decide (length missing = length cs)
  then KeyError ("None of [Index(" +:+ py_repr_list cs
                 +:+ ", dtype='object')] are in the [columns]")
  else KeyError (py_repr_list (unique missing) +:+ " not in index").

(** [df[cols]] with a list of column names: the frame restricted to these
    columns, in the order listed; [KeyError] when one is absent. *)
Definition getitem_columns (df : DataFrame) (cs : list string) : result DataFrame :=
  match get_locs cs (columns df) with
  | Some locs =>
      Ok (mkDF cs (map (fun r => (r.1, map (fun i => cell i r) locs)) (records df)))
  | None => Raise (not_in_index cs (columns df))
  end.

(** The rows of an inner join on the columns at positions [i] (left) and
    [j] (right): each left row, in order, paired with every right row that
    carries the same key; the key cell is kept once, from the left row. *)
Definition merge_rows (i j : nat) (left right : list record) : list (list value) :=
  l ← left;
  r ← List.filter (fun r => bool_decide (cell j r = cell i l)) right;
  [l.2 ++ delete j r.2].

(** [pd.merge(left, right, on=[key])]: the inner join.  The result has the
    columns of [left] followed by those of [right] other than the key (a name
    on both sides other than the key gets the suffixes [_x] and [_y]) and a
    fresh index [0 .. n-1].  Rows are given in the order of the left keys, as
    pandas documents; no property below depends on the row order. *)
Definition merge (left right : DataFrame) (key : string) : result DataFrame :=
  match get_loc key (columns left), get_loc key (columns right) with
  | Some i, Some j =>
      let rcols := delete j (columns right) in
      let lnames :=
        map (fun c => if bool_decide (c ∈ rcols) && negb (bool_decide (c = key))
                      then c +:+ "_x" else c) (columns left) in
      let rnames :=
        map (fun c => if bool_decide (c ∈ columns left) then c +:+ "_y" else c) rcols in
      Ok (mkDF (lnames ++ rnames)
            (imap (fun n vs => (Z.of_nat n, vs))
               (merge_rows i j (records left) (records right))))
  | _, _ => Raise (KeyError key)
  end.

(** The instance attributes set by [ACSDataSource.__init__]. *)
Record ACSDataSource : Type := mkSource {
  _survey_year : string;
  _horizon : string;
  _survey : string;
  _root_dir : string
}.

Definition dquote : string := String "034"%char EmptyString.

Definition __init__ (survey_year horizon survey root_dir : string) : result ACSDataSource :=
  if bool_decide (horizon ∉ ["1-Year"; "5-Year"])
  then Raise (ValueError ("Horizon must be either " +:+ dquote +:+ "1-Year" +:+ dquote
                          +:+ " or " +:+ dquote +:+ "5-Year" +:+ dquote))
  else Ok {| _survey_year := survey_year; _horizon := horizon;
             _survey := survey; _root_dir := root_dir |}.

(** The keyword arguments of a call to [load_acs]; [None] where the call
    leaves an argument to the callee's default. *)
Record load_request : Type := mkRequest {
  root_dir : string;
  year : string;
  states : option (list string);
  horizon : string;
  survey : string;
  density : option Q;
  random_seed : option Z;
  serial_filter_list : option (list value);
  download : bool
}.

(** Calls made to the collaborators, in program order. *)
Inductive event : Type :=
  | LoadAcs (rq : load_request)
  | Merge (left right : DataFrame).

Section DataSource.

(** [load_acs] is imported from [load_acs.py]; it reads (and, when allowed
    to download, fills) the cache under the root directory.  It is a
    parameter here: a function of its keyword arguments and of the state of
    the cache and the network, which returns a table or raises. *)
Context {world : Type}.
Variable load_acs : load_request -> world -> result DataFrame * world.

(** What a method call can read and write: the instance, the outside
    world, and the log of collaborator calls. *)
Record heap : Type := mkHeap {
  this : ACSDataSource;
  disk : world;
  calls : list event
}.

Definition Prog (A : Type) : Type := heap -> result A * heap.

#[global] Instance Prog_ret : MRet Prog := fun A a h => (Ok a, h).
#[global] Instance Prog_bind : MBind Prog := fun A B f m h =>
  match m h with
  | (Ok a, h') => f a h'
  | (Raise e, h') => (Raise e, h')
  end.

Definition get_self : Prog ACSDataSource := fun h => (Ok (this h), h).

Definition lift {A} (r : result A) : Prog A := fun h => (r, h).

(** [assert b, msg], with assertions enabled (the interpreter's default). *)
Definition py_assert (b : bool) (msg : option string) : Prog unit :=
  fun h => if b then (Ok (), h) else (Raise (AssertionError msg), h).

Definition call_load_acs (rq : load_request) : Prog DataFrame := fun h =>
  let (r, w) := load_acs rq (disk h) in
  (r, {| this := this h; disk := w; calls := calls h ++ [LoadAcs rq] |}).

Definition call_merge (left right : DataFrame) (key : string) : Prog DataFrame :=
  fun h =>
    (merge left right key,
     {| this := this h; disk := disk h; calls := calls h ++ [Merge left right] |}).

Definition person_request (self : ACSDataSource) (states : option (list string))
    (density : Q) (random_seed : Z) (download : bool) : load_request :=
  {| root_dir := _root_dir self; year := _survey_year self; states := states;
     horizon := _horizon self; survey := _survey self;
     density := Some density; random_seed := Some random_seed;
     serial_filter_list := None; download := download |}.

Definition household_request (self : ACSDataSource) (states : option (list string))
    (serials : list value) (download : bool) : load_request :=
  {| root_dir := _root_dir self; year := _survey_year self; states := states;
     horizon := _horizon self; survey := "household";
     density := None; random_seed := None;
     serial_filter_list := Some serials; download := download |}.

Definition lengths_message (join_len orig_len : nat) : string :=
  "Lengths do not match after join: " +:+ pretty join_len +:+ " vs " +:+ pretty orig_len.

(** [ACSDataSource.get_data]; the defaults of the keyword arguments are
    [states=None], [density=1.0], [random_seed=0], [join_household=False],
    [download=False].  [list(household_cols)] enumerates a Python set, in an
    order the language leaves open; [elements] fixes one. *)
Definition get_data (states : option (list string)) (density : Q) (random_seed : Z)
    (join_household download : bool) : Prog DataFrame :=
  self ← get_self;
  data ← call_load_acs (person_request self states density random_seed download);
  if join_household then
    let orig_len := len data in
    self ← get_self;
    _ ← py_assert (bool_decide (_survey self = "person")) None;
    self ← get_self;
    serials ← lift (getitem data "SERIALNO");
    household_data ← call_load_acs (household_request self states serials download);
    let household_cols : gset string :=
      (list_to_set (columns household_data) ∖ list_to_set (columns data))
        ∪ list_to_set ["SERIALNO"] in
    projected ← lift (getitem_columns household_data (elements household_cols));
    join ← call_merge data projected "SERIALNO";
    _ ← py_assert (bool_decide (len join = orig_len))
          (Some (lengths_message (len join) orig_len));
    mret join
  else
    mret data.

End DataSource.

(** ** Vocabulary of the statements *)

(** One line [df = df[df[c] <cmp> k]] of a filter. *)
Definition where_ (c : string) (p : value -> bool) (df : DataFrame) : result DataFrame :=
  s ← getitem df c; getitem_mask df (map p s).

(** A filter whose outcome is decided by the column names (which error, or
    which row predicate) and which keeps the rows satisfying the predicate. *)
Definition column_filter (f : DataFrame -> result DataFrame) : Prop :=
  exists g : list string -> exn + (record -> bool),
    forall t, f t = match g (columns t) with
                    | inl e => Raise e
                    | inr q => Ok (mkDF (columns t) (List.filter q (records t)))
                    end.

(** The mask of the [ACSMobility] filter on the row [r], with the AGEP
    column at position [i]: [(x['AGEP'] <= 18) | (x['AGEP'] >= 35)]. *)
Definition mobility_out (i : nat) (r : record) : bool :=
  cell_le (cell i r) 18 || cell_ge (cell i r) 35.

(** The cell of row [r] under the column called [c] of [df] (NaN when the
    frame has no such column). *)
Definition field (df : DataFrame) (c : string) (r : record) : value :=
  match get_loc c (columns df) with
  | Some i => cell i r
  | None => VNaN
  end.

(** The household columns that the person table does not have. *)
Definition household_only (data household_data : DataFrame) : gset string :=
  list_to_set (columns household_data) ∖ list_to_set (columns data).

(** A filter written as successive lines [df = df[df[c] <cmp> k]]. *)
Fixpoint where_chain (steps : list (string * (value -> bool))) (df : DataFrame) :
    result DataFrame :=
  match steps with
  | [] => Ok df
  | (c, p) :: rest => df ← where_ c p df; where_chain rest df
  end.

(** The first of the names [cs] that is not a column name of [cols]. *)
Fixpoint first_missing (cs cols : list string) : option string :=
  match cs with
  | [] => None
  | c :: cs' =>
      match get_loc c cols with
      | Some _ => first_missing cs' cols
      | None => Some c
      end
  end.

(** The rows of [df] that pass every step of a chain. *)
Definition passes (df : DataFrame) (steps : list (string * (value -> bool))) (r : record) : bool :=
  forallb (fun step => step.2 (field df step.1 r)) steps.

(** How many household rows carry the serial number of the person row [p]. *)
Definition household_matches (data hh : DataFrame) (p : record) : nat :=
  length (List.filter
            (fun q => bool_decide (field hh "SERIALNO" q = field data "SERIALNO" p))
            (records hh)).

(** A collaborator call is a load. *)
Definition is_load (ev : event) : bool :=
  match ev with LoadAcs _ => true | Merge _ _ => false end.

(** ** Fixtures *)

(** An in-memory stand-in for [load_acs], used to run [get_data] on concrete
    tables: the world is a pair of stored tables (person, household); a
    request is answered with the table of the requested survey, restricted to
    the rows whose SERIALNO is in [serial_filter_list] when one is given. *)
Definition stored_tables : Type := (DataFrame * DataFrame)%type.

Definition restrict_serials (df : DataFrame) (serials : list value) : result DataFrame :=
  s ← getitem df "SERIALNO";
  getitem_mask df (map (fun v => bool_decide (v ∈ serials)) s).

Definition load_stored (rq : load_request) (w : stored_tables) : result DataFrame * stored_tables :=
  let found :=
    if decide (survey rq = "person") then Ok w.1
    else if decide (survey rq = "household") then Ok w.2
    else Raise (OtherError "FileNotFoundError" (survey rq)) in
  match serial_filter_list rq with
  | None => (found, w)
  | Some serials => (df ← found; restrict_serials df serials, w)
  end.

Definition persons2 : DataFrame :=
  mkDF ["SERIALNO"; "SPORDER"; "AGEP"; "ST"]
    [(0%Z, [VInt 101; VInt 1; VInt 40; VInt 6]);
     (1%Z, [VInt 101; VInt 2; VInt 12; VInt 6]);
     (2%Z, [VInt 205; VInt 1; VInt 70; VInt 6])].

Definition households_ok : DataFrame :=
  mkDF ["SERIALNO"; "ST"; "NP"; "HINCP"]
    [(0%Z, [VInt 101; VInt 6; VInt 2; VInt 52000]);
     (1%Z, [VInt 205; VInt 6; VInt 1; VInt 18000]);
     (2%Z, [VInt 307; VInt 6; VInt 3; VInt 90000])].

Definition households_short : DataFrame :=
  mkDF ["SERIALNO"; "ST"; "NP"; "HINCP"]
    [(0%Z, [VInt 101; VInt 6; VInt 2; VInt 52000])].

Definition source2018 : ACSDataSource :=
  {| _survey_year := "2018"; _horizon := "1-Year"; _survey := "person"; _root_dir := "data" |}.

Definition source2018_household : ACSDataSource :=
  {| _survey_year := "2018"; _horizon := "1-Year"; _survey := "household"; _root_dir := "data" |}.

Definition start (self : ACSDataSource) (w : stored_tables) : heap :=
  {| this := self; disk := w; calls := [] |}.

(** A second stand-in, which ignores [serial_filter_list] and answers with
    the whole stored table. *)
Definition load_whole (rq : load_request) (w : stored_tables) : result DataFrame * stored_tables :=
  (if decide (survey rq = "person") then Ok w.1
   else if decide (survey rq = "household") then Ok w.2
   else Raise (OtherError "FileNotFoundError" (survey rq)), w).

Definition source2018_census : ACSDataSource :=
  {| _survey_year := "2018"; _horizon := "1-Year"; _survey := "census"; _root_dir := "data" |}.

Definition persons_unkeyed : DataFrame :=
  mkDF ["SPORDER"; "AGEP"] [(0%Z, [VInt 1; VInt 40]); (1%Z, [VInt 2; VInt 12])].

Definition households_unkeyed : DataFrame :=
  mkDF ["NP"; "HINCP"] [(0%Z, [VInt 2; VInt 52000])].

Definition income5 : DataFrame :=
  mkDF ["AGEP"; "PINCP"; "WKHP"; "PWGTP"; "RAC1P"]
    [(0%Z, [VInt 40; VInt 60000; VInt 40; VInt 10; VInt 1]);
     (1%Z, [VInt 15; VInt 200; VInt 10; VInt 12; VInt 2]);
     (2%Z, [VInt 33; VInt 41000; VInt 38; VInt 7; VInt 1]);
     (3%Z, [VInt 58; VInt 50000; VInt 45; VInt 1; VInt 6]);
     (4%Z, [VInt 17; VInt 50001; VInt 20; VInt 25; VInt 9])].

(** A five-row table with every column the income task reads. *)
Definition income5_full : DataFrame :=
  mkDF ["AGEP"; "COW"; "SCHL"; "MAR"; "OCCP"; "POBP"; "RELP"; "WKHP"; "SEX"; "RAC1P";
        "PINCP"; "PWGTP"]
    [(0%Z, [VInt 40; VInt 1; VInt 21; VInt 1; VInt 4700; VInt 6; VInt 0; VInt 40; VInt 1;
            VInt 1; VInt 60000; VInt 10]);
     (1%Z, [VInt 15; VInt 1; VInt 10; VInt 5; VInt 4720; VInt 6; VInt 2; VInt 10; VInt 2;
            VInt 2; VInt 200; VInt 12]);
     (2%Z, [VInt 33; VInt 2; VInt 19; VInt 5; VInt 5240; VInt 36; VInt 0; VInt 38; VInt 2;
            VInt 1; VInt 41000; VInt 7]);
     (3%Z, [VInt 58; VInt 1; VInt 16; VInt 1; VInt 9130; VInt 48; VInt 1; VInt 45; VInt 1;
            VInt 6; VInt 50000; VInt 1]);
     (4%Z, [VInt 17; VInt 1; VInt 13; VInt 5; VInt 4110; VInt 6; VInt 2; VInt 20; VInt 2;
            VInt 9; VInt 50001; VInt 25])].

(** A stand-in for the postprocess step that leaves the feature columns as
    they are. *)
Definition unscaled (post : postprocess_fn) (X : list (list value)) : list (list value) := X.

(** * Properties *)

Example adult_filter_ex :
  adult_filter (mkDF ["AGEP"; "PINCP"; "WKHP"; "PWGTP"]
                  [(0%Z, [VInt 15; VInt 200; VInt 40; VInt 1]);
                   (1%Z, [VInt 30; VInt 60000; VInt 40; VInt 3]);
                   (2%Z, [VInt 30; VNaN; VInt 40; VInt 3])])
  = Ok (mkDF ["AGEP"; "PINCP"; "WKHP"; "PWGTP"]
          [(1%Z, [VInt 30; VInt 60000; VInt 40; VInt 3])]).
Proof. reflexivity. Qed.

(** Index labels matter for the [ACSMobility] filter: with a repeated label,
    dropping the label of an out-of-range row also drops its namesake. *)
Example mobility_preprocess_ex :
  mobility_preprocess (mkDF ["AGEP"]
                  [(0%Z, [VInt 15]); (0%Z, [VInt 20]); (1%Z, [VInt 21]); (2%Z, [VNaN])])
  = Ok (mkDF ["AGEP"] [(1%Z, [VInt 21]); (2%Z, [VNaN])]).
Proof. vm_compute. reflexivity. Qed.

Example adult_filter_missing_column :
  adult_filter (mkDF ["AGEP"; "PINCP"] [(0%Z, [VInt 15; VInt 200])]) = Raise (KeyError "WKHP").
Proof. reflexivity. Qed.

Example get_data_join_ex :
  (get_data load_stored None 1%Q 0%Z true false (start source2018 (persons2, households_ok))).1
  = Ok (mkDF ["SERIALNO"; "SPORDER"; "AGEP"; "ST"; "NP"; "HINCP"]
          [(0%Z, [VInt 101; VInt 1; VInt 40; VInt 6; VInt 2; VInt 52000]);
           (1%Z, [VInt 101; VInt 2; VInt 12; VInt 6; VInt 2; VInt 52000]);
           (2%Z, [VInt 205; VInt 1; VInt 70; VInt 6; VInt 1; VInt 18000])]).
Proof. vm_compute. reflexivity. Qed.

Example get_data_join_short_ex :
  (get_data load_stored None 1%Q 0%Z true false (start source2018 (persons2, households_short))).1
  = Raise (AssertionError (Some "Lengths do not match after join: 2 vs 3")).
Proof. vm_compute. reflexivity. Qed.

(** ** Boolean masks are row filters *)

Lemma select_map {A} (p : A -> bool) (l : list A) :
  select (map p l) l = List.filter p l.
Proof.
  induction l as [|x l IH]; simpl; [reflexivity|].
  destruct (p x); rewrite IH; reflexivity.
Qed.

Lemma filter_filter_andb {A} (p q : A -> bool) (l : list A) :
  List.filter q (List.filter p l) = List.filter (fun x => p x && q x) l.
Proof.
  induction l as [|x l IH]; simpl; [reflexivity|].
  destruct (p x) eqn:Hp; simpl; [destruct (q x)|]; rewrite IH; reflexivity.
Qed.

Lemma filter_sublist {A} (p : A -> bool) (l : list A) :
  sublist (List.filter p l) l.
Proof.
  induction l as [|x l IH]; simpl; [constructor|].
  destruct (p x); [apply sublist_skip | apply sublist_cons]; exact IH.
Qed.

Lemma filter_all_true {A} (p : A -> bool) (l : list A) :
  (forall x, x ∈ l -> p x = true) -> List.filter p l = l.
Proof.
  induction l as [|x l IH]; simpl; intros H; [reflexivity|].
  rewrite (H x) by (left). f_equal. apply IH. intros y Hy. apply H. right. exact Hy.
Qed.

Lemma filter_all_false {A} (p : A -> bool) (l : list A) :
  (forall x, x ∈ l -> p x = false) -> List.filter p l = [].
Proof.
  induction l as [|x l IH]; simpl; intros H; [reflexivity|].
  rewrite (H x) by (left). apply IH. intros y Hy. apply H. right. exact Hy.
Qed.

Lemma elem_of_filter {A} (p : A -> bool) (l : list A) (x : A) :
  x ∈ List.filter p l <-> x ∈ l /\ p x = true.
Proof. rewrite !list_elem_of_In. apply filter_In. Qed.

Lemma where_spec (c : string) (p : value -> bool) (df : DataFrame) :
  where_ c p df =
  match get_loc c (columns df) with
  | Some i => Ok (mkDF (columns df) (List.filter (fun r => p (cell i r)) (records df)))
  | None => Raise (KeyError c)
  end.
Proof.
  unfold where_, getitem. destruct (get_loc c (columns df)) as [i|]; simpl; [|reflexivity].
  unfold getitem_mask, len. rewrite !length_map.
  destruct (decide _) as [_|Hne]; [|congruence].
  rewrite map_map, (select_map (fun r => p (cell i r))). reflexivity.
Qed.

Lemma column_filter_where (c : string) (p : value -> bool) :
  column_filter (where_ c p).
Proof.
  exists (fun cols => match get_loc c cols with
                      | Some i => inr (fun r => p (cell i r))
                      | None => inl (KeyError c)
                      end).
  intros t. rewrite where_spec. destruct (get_loc c (columns t)); reflexivity.
Qed.

Lemma column_filter_ok : column_filter (fun t => Ok t).
Proof.
  exists (fun _ => inr (fun _ => true)). intros [cols rows]; simpl.
  rewrite filter_all_true; auto.
Qed.

Lemma column_filter_bind (f g : DataFrame -> result DataFrame) :
  column_filter f -> column_filter g -> column_filter (fun t => f t ≫= g).
Proof.
  intros [gf Hf] [gg Hg].
  exists (fun cols => match gf cols with
                      | inl e => inl e
                      | inr p => match gg cols with
                                 | inl e => inl e
                                 | inr q => inr (fun r => p r && q r)
                                 end
                      end).
  intros t. rewrite Hf. destruct (gf (columns t)) as [e|p]; simpl; [reflexivity|].
  rewrite Hg; simpl. destruct (gg (columns t)) as [e|q]; [reflexivity|].
  rewrite filter_filter_andb. reflexivity.
Qed.

Lemma column_filter_idempotent (f : DataFrame -> result DataFrame) (t : DataFrame) :
  column_filter f -> f t ≫= f = f t.
Proof.
  intros [g Hg]. rewrite (Hg t). destruct (g (columns t)) as [e|q] eqn:E; simpl; [reflexivity|].
  rewrite Hg; simpl. rewrite E, filter_filter_andb. do 2 f_equal.
  apply filter_ext. intros r. destruct (q r); reflexivity.
Qed.

Lemma column_filter_sublist (f : DataFrame -> result DataFrame) (t t' : DataFrame) :
  column_filter f -> f t = Ok t' ->
  columns t' = columns t /\ sublist (records t') (records t).
Proof.
  intros [g Hg] H. rewrite Hg in H. destruct (g (columns t)) as [e|q]; [discriminate|].
  inversion H; subst; simpl. split; [reflexivity | apply filter_sublist].
Qed.

Lemma adult_filter_column_filter : column_filter adult_filter.
Proof.
  unfold adult_filter.
  repeat (apply (column_filter_bind (where_ _ _)); [apply column_filter_where|]).
  apply column_filter_ok.
Qed.

Lemma public_coverage_filter_column_filter : column_filter public_coverage_filter.
Proof.
  unfold public_coverage_filter.
  repeat (apply (column_filter_bind (where_ _ _)); [apply column_filter_where|]).
  apply column_filter_ok.
Qed.

Lemma travel_time_filter_column_filter : column_filter travel_time_filter.
Proof.
  unfold travel_time_filter.
  repeat (apply (column_filter_bind (where_ _ _)); [apply column_filter_where|]).
  apply column_filter_ok.
Qed.

Lemma employment_filter_column_filter : column_filter employment_filter.
Proof.
  unfold employment_filter.
  repeat (apply (column_filter_bind (where_ _ _)); [apply column_filter_where|]).
  apply column_filter_ok.
Qed.

(** ** The label-based filter of [ACSMobility] *)

Lemma mobility_mask (i : nat) (l : list record) :
  Series_or (Series_le (map (cell i) l) 18) (Series_ge (map (cell i) l) 35)
  = map (mobility_out i) l.
Proof.
  unfold Series_or, Series_le, Series_ge.
  induction l as [|r l IH]; simpl; [reflexivity|]. rewrite IH. reflexivity.
Qed.

Lemma mobility_preprocess_spec (x : DataFrame) :
  mobility_preprocess x =
  match get_loc "AGEP" (columns x) with
  | Some i =>
      Ok (mkDF (columns x)
            (List.filter
               (fun r => bool_decide (r.1 ∉ map fst (List.filter (mobility_out i) (records x))))
               (records x)))
  | None => Raise (KeyError "AGEP")
  end.
Proof.
  unfold mobility_preprocess, getitem.
  destruct (get_loc "AGEP" (columns x)) as [i|]; simpl; [|reflexivity].
  rewrite mobility_mask. unfold getitem_mask, len. rewrite length_map.
  destruct (decide _) as [_|Hne]; [|congruence]. simpl.
  rewrite select_map. unfold DataFrame_drop, index; simpl.
  replace (forallb _ _) with true; [reflexivity|].
  symmetry. apply forallb_forall. intros l Hl. apply bool_decide_eq_true.
  apply list_elem_of_In, list_elem_of_fmap in Hl as [r [-> Hr]].
  apply elem_of_filter in Hr as [Hr _].
  apply list_elem_of_fmap. exists r. split; [reflexivity | exact Hr].
Qed.

Lemma mobility_preprocess_idempotent (t : DataFrame) :
  mobility_preprocess t ≫= mobility_preprocess = mobility_preprocess t.
Proof.
  rewrite (mobility_preprocess_spec t).
  destruct (get_loc "AGEP" (columns t)) as [i|] eqn:E; simpl; [|reflexivity].
  rewrite mobility_preprocess_spec; simpl. rewrite E.
  set (L := map fst (List.filter (mobility_out i) (records t))).
  set (R := List.filter (fun r => bool_decide (r.1 ∉ L)) (records t)).
  assert (HR : List.filter (mobility_out i) R = []).
  { apply filter_all_false. intros r Hr. apply elem_of_filter in Hr as [Hr Hn].
    apply bool_decide_eq_true in Hn.
    destruct (mobility_out i r) eqn:Hm; [|reflexivity].
    exfalso. apply Hn. apply list_elem_of_fmap. exists r. split; [reflexivity|].
    apply elem_of_filter. split; assumption. }
  rewrite HR; simpl. do 2 f_equal.
  apply filter_all_true. intros r _.
  first [reflexivity | apply bool_decide_eq_true, not_elem_of_nil].
Qed.

Lemma mobility_preprocess_sublist (t t' : DataFrame) :
  mobility_preprocess t = Ok t' ->
  columns t' = columns t /\ sublist (records t') (records t).
Proof.
  rewrite mobility_preprocess_spec.
  destruct (get_loc "AGEP" (columns t)); [|discriminate].
  intros H; inversion H; subst; simpl. split; [reflexivity | apply filter_sublist].
Qed.

(** ** Properties of the task filters *)

Lemma preprocess_sublist (p : BasicProblem) (t t' : DataFrame) :
  p ∈ catalog -> preprocess p t = Ok t' ->
  columns t' = columns t /\ sublist (records t') (records t).
Proof.
  intros Hp. unfold catalog in Hp.
  repeat (apply elem_of_cons in Hp as [->|Hp]); simpl;
    try (apply elem_of_nil in Hp; contradiction).
  - apply column_filter_sublist, adult_filter_column_filter.
  - apply (column_filter_sublist (fun t => Ok t)), column_filter_ok.
  - apply (column_filter_sublist (fun t => Ok t)), column_filter_ok.
  - apply column_filter_sublist, public_coverage_filter_column_filter.
  - apply column_filter_sublist, travel_time_filter_column_filter.
  - apply mobility_preprocess_sublist.
  - apply column_filter_sublist, employment_filter_column_filter.
  - apply (column_filter_sublist (fun t => Ok t)), column_filter_ok.
Qed.

(** C7. Every [preprocess] of the catalog is a pure row filter: when it
    returns, the columns are those of the input, the output rows are input
    rows (index label and all cells unchanged) in their original order, and
    the output has at most as many rows as the input. *)
Theorem preprocess_pure_row_filter (p : BasicProblem) (t t' : DataFrame) :
  p ∈ catalog ->
  preprocess p t = Ok t' ->
  columns t' = columns t /\
  sublist (records t') (records t) /\
  (forall r, r ∈ records t' -> r ∈ records t) /\
  len t' <= len t.
Proof.
  intros Hp H. destruct (preprocess_sublist p t t' Hp H) as [Hc Hs].
  split; [exact Hc|]. split; [exact Hs|]. split.
  - intros r Hr. eapply elem_of_sublist; eassumption.
  - unfold len. apply sublist_length. exact Hs.
Qed.

Lemma preprocess_pure_row_filter_witness :
  let t' := mkDF (columns income5) (delete 1 (records income5)) in
  ACSIncome ∈ catalog /\
  preprocess ACSIncome income5 = Ok t' /\
  columns t' = columns income5 /\
  sublist (records t') (records income5) /\
  (forall r, r ∈ records t' -> r ∈ records income5) /\
  len t' <= len income5.
Proof.
  intros t'. split; [left|]. split; [vm_compute; reflexivity|].
  apply (preprocess_pure_row_filter ACSIncome income5 t'); [left | vm_compute; reflexivity].
Defined.

(** C6. Filter idempotence: for each preprocess function of the exported
    tasks, and so for each task of the catalog, filtering an already
    filtered table changes nothing (and a filter that raises on [t] raises
    the same error). *)
Theorem preprocess_idempotent :
  Forall (fun f : DataFrame -> result DataFrame => forall t, f t ≫= f = f t)
    [adult_filter; public_coverage_filter; travel_time_filter; employment_filter;
     mobility_preprocess; identity_preprocess] /\
  Forall (fun p => forall t, preprocess p t ≫= preprocess p = preprocess p t) catalog.
Proof.
  assert (Ha := fun t => column_filter_idempotent _ t adult_filter_column_filter).
  assert (Hc := fun t => column_filter_idempotent _ t public_coverage_filter_column_filter).
  assert (Ht := fun t => column_filter_idempotent _ t travel_time_filter_column_filter).
  assert (He := fun t => column_filter_idempotent _ t employment_filter_column_filter).
  assert (Hm := mobility_preprocess_idempotent).
  assert (Hi : forall t, identity_preprocess t ≫= identity_preprocess = identity_preprocess t)
    by reflexivity.
  split; unfold catalog; repeat constructor; simpl; assumption.
Qed.

(** C10. [public_coverage_filter] keeps exactly the rows with AGEP < 65 and
    PINCP <= 30000, in their original order: on a table that has both
    columns it returns the input rows satisfying both conditions (a row is in
    the output if and only if it is an input row for which both hold), and
    on a table lacking one of the columns it raises [KeyError]. *)
Theorem public_coverage_filter_keeps_exactly (t : DataFrame) :
  match get_loc "AGEP" (columns t), get_loc "PINCP" (columns t) with
  | Some i, Some j =>
      exists t',
        public_coverage_filter t = Ok t' /\
        columns t' = columns t /\
        records t' =
          List.filter (fun r => cell_lt (cell i r) 65 && cell_le (cell j r) 30000) (records t) /\
        (forall r, r ∈ records t' <->
                   r ∈ records t /\ cell_lt (field t "AGEP" r) 65 = true
                                /\ cell_le (field t "PINCP" r) 30000 = true) /\
        sublist (records t') (records t)
  | None, _ => public_coverage_filter t = Raise (KeyError "AGEP")
  | Some _, None => public_coverage_filter t = Raise (KeyError "PINCP")
  end.
Proof.
  change (public_coverage_filter t)
    with (df ← where_ "AGEP" (fun v => cell_lt v 65) t;
          df ← where_ "PINCP" (fun v => cell_le v 30000) df; Ok df).
  rewrite where_spec. unfold field.
  destruct (get_loc "AGEP" (columns t)) as [i|] eqn:Ei; [|reflexivity]. simpl.
  rewrite where_spec; simpl.
  destruct (get_loc "PINCP" (columns t)) as [j|] eqn:Ej; [|reflexivity]. simpl.
  rewrite filter_filter_andb.
  eexists. split; [reflexivity|]. simpl. split; [reflexivity|]. split; [reflexivity|].
  split; [|apply filter_sublist].
  intros r. rewrite elem_of_filter, andb_true_iff. tauto.
Qed.

Example public_coverage_filter_ex :
  public_coverage_filter
    (mkDF ["PINCP"; "AGEP"]
       [(7%Z, [VInt 30000; VInt 64]); (3%Z, [VInt 30001; VInt 20]);
        (5%Z, [VInt 100; VInt 65]); (1%Z, [VNaN; VInt 10]); (9%Z, [VInt 0; VInt 0])])
  = Ok (mkDF ["PINCP"; "AGEP"] [(7%Z, [VInt 30000; VInt 64]); (9%Z, [VInt 0; VInt 0])]).
Proof. reflexivity. Qed.

(** ** The income task on a five-row table *)

Lemma adult_filter_spec (t : DataFrame) (ia ip iw ig : nat) :
  get_loc "AGEP" (columns t) = Some ia ->
  get_loc "PINCP" (columns t) = Some ip ->
  get_loc "WKHP" (columns t) = Some iw ->
  get_loc "PWGTP" (columns t) = Some ig ->
  adult_filter t =
  Ok (mkDF (columns t)
        (List.filter (fun r => cell_gt (cell ia r) 16 && cell_gt (cell ip r) 100
                               && cell_gt (cell iw r) 0 && cell_ge (cell ig r) 1)
           (records t))).
Proof.
  intros Ha Hp Hw Hg.
  change (adult_filter t)
    with (df ← where_ "AGEP" (fun v => cell_gt v 16) t;
          df ← where_ "PINCP" (fun v => cell_gt v 100) df;
          df ← where_ "WKHP" (fun v => cell_gt v 0) df;
          df ← where_ "PWGTP" (fun v => cell_ge v 1) df; Ok df).
  rewrite where_spec, Ha; simpl. rewrite where_spec; simpl; rewrite Hp; simpl.
  rewrite where_spec; simpl; rewrite Hw; simpl.
  rewrite where_spec; simpl; rewrite Hg; simpl.
  rewrite !filter_filter_andb. do 2 f_equal.
  apply filter_ext. intros x. rewrite ?andb_assoc. reflexivity.
Qed.

Lemma field_some (t : DataFrame) (c : string) (r : record) (k : Z) :
  cell_gt (field t c r) k = true \/ cell_ge (field t c r) k = true \/
  (exists z, field t c r = VInt z) ->
  exists i, get_loc c (columns t) = Some i /\ forall x, field t c x = cell i x.
Proof.
  unfold field. destruct (get_loc c (columns t)) as [i|].
  - intros _. exists i. split; [reflexivity|]. intros x. reflexivity.
  - simpl. intros [H|[H|[z H]]]; discriminate.
Qed.

Lemma get_loc_lookup (c : string) (cols : list string) (i : nat) :
  get_loc c cols = Some i -> cols !! i = Some c.
Proof.
  revert i. induction cols as [|c' cs IH]; simpl; intros i H; [discriminate|].
  destruct (decide (c = c')) as [->|Hne].
  - inversion H; subst. reflexivity.
  - destruct (get_loc c cs) as [k|]; simpl in H; [|discriminate].
    inversion H; subst. simpl. apply IH. reflexivity.
Qed.

Lemma get_loc_elem_of (c : string) (cols : list string) (i : nat) :
  get_loc c cols = Some i -> c ∈ cols.
Proof. intros H. eapply list_elem_of_lookup_2, get_loc_lookup, H. Qed.

Lemma get_loc_is_Some (c : string) (cols : list string) :
  c ∈ cols -> exists i, get_loc c cols = Some i.
Proof.
  induction cols as [|c' cs IH]; simpl; intros H; [apply elem_of_nil in H; contradiction|].
  destruct (decide (c = c')) as [->|Hne]; [eauto|].
  apply elem_of_cons in H as [H|H]; [contradiction|].
  destruct (IH H) as [i ->]. simpl. eauto.
Qed.

Lemma getitem_field (df : DataFrame) (c : string) :
  getitem df c =
  match get_loc c (columns df) with
  | Some _ => Ok (map (field df c) (records df))
  | None => Raise (KeyError c)
  end.
Proof.
  unfold getitem, field. destruct (get_loc c (columns df)); reflexivity.
Qed.

Lemma first_missing_None (cs cols : list string) (c : string) :
  first_missing cs cols = None -> c ∈ cs -> exists i, get_loc c cols = Some i.
Proof.
  induction cs as [|c' cs IH]; simpl; intros H Hc.
  - apply elem_of_nil in Hc. contradiction.
  - destruct (get_loc c' cols) as [i|] eqn:E; [|discriminate].
    apply elem_of_cons in Hc as [->|Hc]; eauto.
Qed.

Lemma extract_features_spec (fts : list (string * option (list value -> list value)))
    (filtered : DataFrame) :
  extract_features fts filtered =
  match first_missing (map fst fts) (columns filtered) with
  | Some c => Raise (KeyError c)
  | None =>
      Ok (map (fun ft => match ft.2 with
                         | Some f => f (map (field filtered ft.1) (records filtered))
                         | None => map (field filtered ft.1) (records filtered)
                         end) fts)
  end.
Proof.
  induction fts as [|[c tr] rest IH]; simpl; [reflexivity|].
  rewrite getitem_field. destruct (get_loc c (columns filtered)); simpl; [|reflexivity].
  rewrite IH. destruct (first_missing (map fst rest) (columns filtered)); reflexivity.
Qed.

(** C5. The income task on a table of five rows that all have PINCP > 100,
    WKHP > 0 and PWGTP >= 1, one of them ([r]) with AGEP = 15 and the other
    four ([l1] before it, [l2] after it) with AGEP > 16: the filtered table
    has the four other rows; and the task, which fails with the name of the
    first feature column that the table lacks, otherwise returns a [y] of
    four boolean entries, the value of PINCP > 50000 on the corresponding
    surviving row (and a group vector of four entries). *)
Theorem ACSIncome_five_rows {matrix : Type}
    (apply_postprocess : postprocess_fn -> list (list value) -> matrix)
    (t : DataFrame) (l1 l2 : list record) (r : record) :
  records t = l1 ++ r :: l2 ->
  len t = 5 ->
  Forall (fun x => cell_gt (field t "PINCP" x) 100 = true /\
                   cell_gt (field t "WKHP" x) 0 = true /\
                   cell_ge (field t "PWGTP" x) 1 = true) (records t) ->
  field t "AGEP" r = VInt 15 ->
  Forall (fun x => cell_gt (field t "AGEP" x) 16 = true) (l1 ++ l2) ->
  exists (t' : DataFrame),
    preprocess ACSIncome t = Ok t' /\
    columns t' = columns t /\
    records t' = l1 ++ l2 /\
    len t' = 4 /\
    match first_missing ["AGEP"; "COW"; "SCHL"; "MAR"; "OCCP"; "POBP"; "RELP"; "WKHP";
                         "SEX"; "RAC1P"] (columns t) with
    | Some c => features_and_target apply_postprocess ACSIncome t = Raise (KeyError c)
    | None =>
        exists (X : matrix) (y : list bool) (g : list value),
          features_and_target apply_postprocess ACSIncome t = Ok (X, y, g) /\
          length y = 4 /\
          y = map (fun x => cell_gt (field t' "PINCP" x) 50000) (records t') /\
          length g = 4
    end.
Proof.
  intros Hrec Hlen Hall Hr Hrest.
  assert (Hin : r ∈ records t) by (rewrite Hrec; apply elem_of_app; right; left).
  destruct (proj1 (Forall_forall _ _) Hall r Hin) as (Hp & Hw & Hg).
  destruct (field_some t "AGEP" r 0) as (ia & Ea & Fa); [right; right; eauto|].
  destruct (field_some t "PINCP" r 100) as (ip & Ep & Fp); [left; exact Hp|].
  destruct (field_some t "WKHP" r 0) as (iw & Ew & Fw); [left; exact Hw|].
  destruct (field_some t "PWGTP" r 1) as (ig & Eg & Fg); [right; left; exact Hg|].
  set (keep := fun x => cell_gt (cell ia x) 16 && cell_gt (cell ip x) 100
                        && cell_gt (cell iw x) 0 && cell_ge (cell ig x) 1).
  assert (Hkeep : forall x, x ∈ l1 ++ l2 -> keep x = true).
  { intros x Hx. unfold keep.
    assert (Hx' : x ∈ records t).
    { rewrite Hrec. apply elem_of_app in Hx as [Hx|Hx]; apply elem_of_app;
        [left | right; right]; exact Hx. }
    destruct (proj1 (Forall_forall _ _) Hall x Hx') as (Hp' & Hw' & Hg').
    pose proof (proj1 (Forall_forall _ _) Hrest x Hx) as Ha'. cbv beta in Ha'.
    rewrite Fa in Ha'. rewrite Fp in Hp'. rewrite Fw in Hw'. rewrite Fg in Hg'.
    rewrite Ha', Hp', Hw', Hg'. reflexivity. }
  assert (Hdrop : keep r = false).
  { unfold keep. rewrite <- Fa, Hr. reflexivity. }
  assert (Hfilter : List.filter keep (records t) = l1 ++ l2).
  { rewrite Hrec, List.filter_app. simpl. rewrite Hdrop.
    rewrite !filter_all_true; [reflexivity| |];
      intros x Hx; apply Hkeep, elem_of_app; [right | left]; exact Hx. }
  assert (Hlen4 : length (l1 ++ l2) = 4).
  { unfold len in Hlen. rewrite Hrec in Hlen. rewrite length_app in *. simpl in Hlen. lia. }
  assert (Hpre : adult_filter t = Ok (mkDF (columns t) (l1 ++ l2))).
  { rewrite (adult_filter_spec t ia ip iw ig Ea Ep Ew Eg). fold keep. rewrite Hfilter.
    reflexivity. }
  exists (mkDF (columns t) (l1 ++ l2)).
  split; [exact Hpre|]. split; [reflexivity|]. split; [reflexivity|].
  split; [exact Hlen4|].
  unfold features_and_target.
  change (preprocess ACSIncome t) with (adult_filter t). rewrite Hpre.
  change (Ok (mkDF (columns t) (l1 ++ l2)) ≫= ?k) with (k (mkDF (columns t) (l1 ++ l2))).
  cbv beta. rewrite extract_features_spec.
  change (map fst (feature_transforms ACSIncome))
    with ["AGEP"; "COW"; "SCHL"; "MAR"; "OCCP"; "POBP"; "RELP"; "WKHP"; "SEX"; "RAC1P"].
  cbn [columns].
  destruct (first_missing _ (columns t)) eqn:Hmiss; [reflexivity|].
  destruct (first_missing_None _ _ "RAC1P" Hmiss) as [irace Erace].
  { do 9 right. left. }
  cbn [mbind result_bind]. rewrite !getitem_field. cbn [columns target group ACSIncome].
  rewrite Ep, Erace. cbn [mbind result_bind].
  eexists _, _, _. split; [reflexivity|].
  cbn [records target_transform ACSIncome]. unfold Series_gt.
  rewrite map_map, !length_map. split; [exact Hlen4|]. split; [reflexivity | exact Hlen4].
Qed.

Lemma ACSIncome_five_rows_witness :
  exists (X : list (list value)) (y : list bool) (g : list value),
    features_and_target unscaled ACSIncome income5_full = Ok (X, y, g) /\
    length y = 4 /\
    y = [true; false; false; true] /\
    length g = 4.
Proof.
  destruct (ACSIncome_five_rows unscaled income5_full
              (take 1 (records income5_full)) (drop 2 (records income5_full))
              (1%Z, [VInt 15; VInt 1; VInt 10; VInt 5; VInt 4720; VInt 6; VInt 2; VInt 10;
                     VInt 2; VInt 2; VInt 200; VInt 12]))
    as (t' & Hpre & _ & _ & _ & Hy).
  - reflexivity.
  - reflexivity.
  - vm_compute. repeat constructor.
  - reflexivity.
  - vm_compute. repeat constructor.
  - vm_compute in Hpre. inversion Hpre; subst t'; clear Hpre.
    destruct Hy as (X & y & g & Hrun & Hlen & Hy & Hg).
    exists X, y, g. split; [exact Hrun|]. split; [exact Hlen|]. split; [|exact Hg].
    rewrite Hy. vm_compute. reflexivity.
Defined.

Example features_and_target_missing_feature :
  features_and_target unscaled ACSIncome income5 = Raise (KeyError "COW").
Proof. reflexivity. Qed.

(** C9. Every task of the catalog names RAC1P as its group column, so the
    group vector that a task returns is the RAC1P column of the filtered
    table, unmodified: one entry per row kept by the task's [preprocess],
    the row's own RAC1P cell, in row order. *)
Theorem catalog_group_is_RAC1P {matrix : Type}
    (apply_postprocess : postprocess_fn -> list (list value) -> matrix)
    (p : BasicProblem) :
  p ∈ catalog ->
  group p = "RAC1P" /\
  forall (t : DataFrame) (X : matrix) (y : list bool) (g : list value),
    features_and_target apply_postprocess p t = Ok (X, y, g) ->
    exists filtered,
      preprocess p t = Ok filtered /\
      sublist (records filtered) (records t) /\
      "RAC1P" ∈ columns filtered /\
      g = map (field filtered "RAC1P") (records filtered) /\
      length g = len filtered.
Proof.
  intros Hp.
  assert (Hgrp : group p = "RAC1P").
  { unfold catalog in Hp.
    repeat (apply elem_of_cons in Hp as [->|Hp]; [reflexivity|]).
    apply elem_of_nil in Hp. contradiction. }
  split; [exact Hgrp|].
  intros t X y g H. unfold features_and_target in H.
  destruct (preprocess p t) as [filtered|e] eqn:Hpre; [|discriminate].
  cbn [mbind result_bind] in H.
  destruct (extract_features (feature_transforms p) filtered) as [cols|e]; [|discriminate].
  cbn [mbind result_bind] in H.
  destruct (getitem filtered (target p)) as [col|e]; [|discriminate].
  cbn [mbind result_bind] in H.
  rewrite Hgrp, getitem_field in H.
  destruct (get_loc "RAC1P" (columns filtered)) as [i|] eqn:Ei; [|discriminate].
  cbn [mbind result_bind] in H. inversion H; subst; clear H.
  exists filtered. split; [reflexivity|].
  split; [apply (preprocess_sublist p t filtered Hp Hpre)|].
  split; [eapply get_loc_elem_of, Ei|]. split; [reflexivity|].
  unfold len. apply length_map.
Qed.

Lemma catalog_group_is_RAC1P_witness :
  ACSIncome ∈ catalog /\
  group ACSIncome = "RAC1P" /\
  exists (X : list (list value)) (y : list bool),
    features_and_target unscaled ACSIncome income5_full
    = Ok (X, y, [VInt 1; VInt 1; VInt 6; VInt 9]).
Proof.
  assert (Hin : ACSIncome ∈ catalog) by left.
  destruct (catalog_group_is_RAC1P unscaled ACSIncome Hin) as [Hgrp Hvec].
  split; [exact Hin|]. split; [exact Hgrp|].
  destruct (features_and_target unscaled ACSIncome income5_full) as [[[X y] g]|e] eqn:E;
    [|vm_compute in E; discriminate].
  destruct (Hvec income5_full X y g E) as (filtered & Hpre & _ & _ & Hg & _).
  vm_compute in Hpre. inversion Hpre; subst filtered; clear Hpre.
  vm_compute in Hg. subst g. exists X, y. reflexivity.
Defined.

(** ** Construction of a data source *)

Lemma init_bad_horizon_raises (survey_year horizon survey root_dir : string) :
  horizon ∉ ["1-Year"; "5-Year"] ->
  exists msg, __init__ survey_year horizon survey root_dir = Raise (ValueError msg).
Proof.
  intros H. unfold __init__. rewrite bool_decide_eq_true_2 by exact H. eauto.
Qed.

Lemma init_good_horizon_returns (survey_year horizon survey root_dir : string) :
  horizon ∈ ["1-Year"; "5-Year"] ->
  __init__ survey_year horizon survey root_dir
  = Ok {| _survey_year := survey_year; _horizon := horizon;
          _survey := survey; _root_dir := root_dir |}.
Proof.
  intros H. unfold __init__. rewrite bool_decide_eq_false_2; [reflexivity|]. auto.
Qed.

(** C2, at the failing input. The constructor checks the horizon only: with
    a valid horizon, a survey that is neither 'person' nor 'household' is
    accepted and stored. *)
Theorem init_accepts_unknown_survey :
  ("census" ∉ ["person"; "household"]) /\
  (__init__ "2018" "1-Year" "census" "data"
   = Ok {| _survey_year := "2018"; _horizon := "1-Year";
           _survey := "census"; _root_dir := "data" |}).
Proof.
  split; [|reflexivity].
  intros H. repeat (apply elem_of_cons in H as [H|H]; [discriminate|]).
  apply elem_of_nil in H. exact H.
Qed.

(** ** Column selection and the inner join *)

Lemma get_locs_fields (hh : DataFrame) (cs : list string) (locs : list nat) (r : record) :
  get_locs cs (columns hh) = Some locs ->
  map (fun i => cell i r) locs = map (fun c => field hh c r) cs.
Proof.
  revert locs. induction cs as [|c cs IH]; simpl; intros locs H.
  - inversion H. reflexivity.
  - unfold field at 1. destruct (get_loc c (columns hh)) as [i|]; [|discriminate].
    destruct (get_locs cs (columns hh)) as [rest|]; simpl in H; [|discriminate].
    inversion H; subst. simpl. f_equal. apply IH. reflexivity.
Qed.

Lemma get_locs_elem_of (cs cols : list string) (locs : list nat) (c : string) :
  get_locs cs cols = Some locs -> c ∈ cs -> c ∈ cols.
Proof.
  revert locs. induction cs as [|c' cs IH]; simpl; intros locs H Hc.
  - apply elem_of_nil in Hc. contradiction.
  - destruct (get_loc c' cols) as [i|] eqn:E; [|discriminate].
    destruct (get_locs cs cols) as [rest|]; simpl in H; [|discriminate].
    apply elem_of_cons in Hc as [->|Hc]; [eapply get_loc_elem_of, E | eapply IH; eauto].
Qed.

Lemma getitem_columns_inv (hh projected : DataFrame) (cs : list string) :
  getitem_columns hh cs = Ok projected ->
  columns projected = cs /\
  records projected = map (fun r => (r.1, map (fun c => field hh c r) cs)) (records hh) /\
  (forall c, c ∈ cs -> c ∈ columns hh).
Proof.
  unfold getitem_columns. destruct (get_locs cs (columns hh)) as [locs|] eqn:E; simpl;
    [|discriminate].
  intros H; inversion H; subst; simpl. split; [reflexivity|]. split.
  - apply map_ext. intros r. f_equal. apply get_locs_fields. exact E.
  - intros c. eapply get_locs_elem_of. exact E.
Qed.

Lemma delete_map {A B} (f : A -> B) (j : nat) (l : list A) :
  delete j (map f l) = map f (delete j l).
Proof.
  revert j. induction l as [|x l IH]; intros [|j]; simpl; try reflexivity.
  f_equal. apply IH.
Qed.

Lemma NoDup_delete_not_elem_of {A} (l : list A) (j : nat) (x : A) :
  NoDup l -> l !! j = Some x -> x ∉ delete j l.
Proof.
  intros Hnd Hj. rewrite (delete_Permutation l j x Hj) in Hnd.
  apply NoDup_cons in Hnd as [Hx _]. exact Hx.
Qed.

Lemma elem_of_delete_NoDup {A} (l : list A) (j : nat) (x y : A) :
  NoDup l -> l !! j = Some x -> (y ∈ delete j l <-> y ∈ l /\ y <> x).
Proof.
  intros Hnd Hj. split.
  - intros Hy. split.
    + eapply elem_of_sublist; [exact Hy | apply sublist_delete].
    + intros ->. eapply NoDup_delete_not_elem_of; eauto.
  - intros [Hy Hne]. rewrite (delete_Permutation l j x Hj) in Hy.
    apply elem_of_cons in Hy as [Hy|Hy]; [contradiction | exact Hy].
Qed.

Lemma map_id_on {A} (f : A -> A) (l : list A) :
  (forall x, x ∈ l -> f x = x) -> map f l = l.
Proof.
  induction l as [|x l IH]; simpl; intros H; [reflexivity|].
  rewrite (H x) by left. f_equal. apply IH. intros y Hy. apply H. right. exact Hy.
Qed.

(** When the two frames share no column name besides the key, the join
    renames nothing. *)
Lemma merge_no_overlap (left right : DataFrame) (key : string) (i j : nat) :
  get_loc key (columns left) = Some i ->
  get_loc key (columns right) = Some j ->
  NoDup (columns right) ->
  (forall c, c ∈ columns right -> c <> key -> c ∉ columns left) ->
  merge left right key =
  Ok (mkDF (columns left ++ delete j (columns right))
        (imap (fun n vs => (Z.of_nat n, vs))
           (merge_rows i j (records left) (records right)))).
Proof.
  intros Hi Hj Hnd Hdis. unfold merge. rewrite Hi, Hj.
  pose proof (get_loc_lookup _ _ _ Hj) as Hjl.
  f_equal. f_equal. f_equal.
  - apply map_id_on. intros c Hc.
    destruct (bool_decide (c ∈ delete j (columns right))) eqn:E1; [|reflexivity].
    destruct (bool_decide (c = key)) eqn:E2; [reflexivity|]. exfalso.
    apply bool_decide_eq_true in E1. apply bool_decide_eq_false in E2.
    apply (elem_of_delete_NoDup _ _ _ _ Hnd Hjl) in E1 as [E1 _].
    exact (Hdis c E1 E2 Hc).
  - apply map_id_on. intros c Hc.
    apply (elem_of_delete_NoDup _ _ _ _ Hnd Hjl) in Hc as [Hc Hne].
    rewrite bool_decide_eq_false_2; [reflexivity|]. apply Hdis; assumption.
Qed.

Lemma elem_of_merge_rows (i j : nat) (left right : list record) (vs : list value) :
  vs ∈ merge_rows i j left right ->
  exists l r, l ∈ left /\ r ∈ right /\ cell j r = cell i l /\ vs = l.2 ++ delete j r.2.
Proof.
  unfold merge_rows. intros H.
  apply list_elem_of_bind in H as (l & H & Hl).
  apply list_elem_of_bind in H as (r & H & Hr).
  apply list_elem_of_singleton in H.
  apply elem_of_filter in Hr as [Hr Hk]. apply bool_decide_eq_true in Hk.
  exists l, r. auto.
Qed.

(** ** [get_data] *)

Section GetData.

Context {world : Type}.
Variable load_acs : load_request -> world -> result DataFrame * world.

Abbreviation run := (get_data load_acs).

Ltac step_get_data :=
  unfold get_data, mbind, mret, Prog_bind, Prog_ret, get_self, call_load_acs,
    call_merge, py_assert, lift; cbn [this disk calls fst snd].

(** The path of a call with [join_household=True] that reaches the merge. *)
Lemma get_data_join_run (st : option (list string)) (d : Q) (s : Z) (dl : bool)
    (h : heap) (data hh projected joined : DataFrame) (w1 w2 : world)
    (serials : list value) :
  load_acs (person_request (this h) st d s dl) (disk h) = (Ok data, w1) ->
  _survey (this h) = "person" ->
  getitem data "SERIALNO" = Ok serials ->
  load_acs (household_request (this h) st serials dl) w1 = (Ok hh, w2) ->
  getitem_columns hh
    (elements ((list_to_set (columns hh) ∖ list_to_set (columns data))
                 ∪ list_to_set ["SERIALNO"] : gset string)) = Ok projected ->
  merge data projected "SERIALNO" = Ok joined ->
  run st d s true dl h =
  (if bool_decide (len joined = len data) then Ok joined
   else Raise (AssertionError (Some (lengths_message (len joined) (len data)))),
   {| this := this h; disk := w2;
      calls := calls h ++ [LoadAcs (person_request (this h) st d s dl);
                           LoadAcs (household_request (this h) st serials dl);
                           Merge data projected] |}).
Proof.
  intros H1 Hs Hser H2 Hproj Hm. step_get_data.
  rewrite H1; cbn [this disk calls fst snd]. rewrite bool_decide_eq_true_2 by exact Hs. cbn [this disk calls fst snd].
  rewrite Hser; cbn [this disk calls fst snd]. rewrite H2; cbn [this disk calls fst snd]. rewrite Hproj; cbn [this disk calls fst snd]. rewrite Hm; cbn [this disk calls fst snd].
  rewrite <- !app_assoc. cbn [this disk calls fst snd].
  destruct (bool_decide (len joined = len data)); reflexivity.
Qed.

(** Conversely, a call with [join_household=True] that returns went
    through every step of that path, and the length check passed. *)
Lemma get_data_join_inv (st : option (list string)) (d : Q) (s : Z) (dl : bool)
    (h h' : heap) (t : DataFrame) :
  run st d s true dl h = (Ok t, h') ->
  exists (data hh projected : DataFrame) (w1 w2 : world) (serials : list value),
    load_acs (person_request (this h) st d s dl) (disk h) = (Ok data, w1) /\
    _survey (this h) = "person" /\
    getitem data "SERIALNO" = Ok serials /\
    load_acs (household_request (this h) st serials dl) w1 = (Ok hh, w2) /\
    getitem_columns hh
      (elements ((list_to_set (columns hh) ∖ list_to_set (columns data))
                   ∪ list_to_set ["SERIALNO"] : gset string)) = Ok projected /\
    merge data projected "SERIALNO" = Ok t /\
    len t = len data /\
    h' = {| this := this h; disk := w2;
            calls := calls h ++ [LoadAcs (person_request (this h) st d s dl);
                                 LoadAcs (household_request (this h) st serials dl);
                                 Merge data projected] |}.
Proof.
  step_get_data.
  destruct (load_acs (person_request (this h) st d s dl) (disk h)) as [[data|e] w1] eqn:H1;
    cbn [this disk calls fst snd]; [|discriminate].
  destruct (bool_decide (_survey (this h) = "person")) eqn:Hs; cbn [this disk calls fst snd]; [|discriminate].
  apply bool_decide_eq_true in Hs.
  destruct (getitem data "SERIALNO") as [serials|e] eqn:Hser; cbn [this disk calls fst snd]; [|discriminate].
  destruct (load_acs (household_request (this h) st serials dl) w1) as [[hh|e] w2] eqn:H2;
    cbn [this disk calls fst snd]; [|discriminate].
  destruct (getitem_columns hh _) as [projected|e] eqn:Hproj; cbn [this disk calls fst snd]; [|discriminate].
  destruct (merge data projected "SERIALNO") as [joined|e] eqn:Hm; cbn [this disk calls fst snd]; [|discriminate].
  destruct (bool_decide (len joined = len data)) eqn:Hlen; cbn [this disk calls fst snd]; [|discriminate].
  apply bool_decide_eq_true in Hlen.
  intros H; inversion H; subst.
  exists data, hh, projected, w1, w2, serials.
  rewrite <- !app_assoc. cbn [this disk calls fst snd]. repeat (split; [assumption || reflexivity|]). reflexivity.
Qed.

(** C4. With [join_household=True] on a source whose survey is not
    'person' the call raises before any merge is attempted: the only
    collaborator call made is the first [load_acs], and the error is the one
    raised by that load or the failed assertion. *)
Theorem get_data_join_requires_person (st : option (list string)) (d : Q) (s : Z)
    (dl : bool) (h : heap) :
  _survey (this h) <> "person" ->
  exists (e : exn) (h' : heap),
    run st d s true dl h = (Raise e, h') /\
    calls h' = calls h ++ [LoadAcs (person_request (this h) st d s dl)] /\
    (forall l r, Merge l r ∈ calls h' -> Merge l r ∈ calls h) /\
    ((load_acs (person_request (this h) st d s dl) (disk h)).1 = Raise e \/
     e = AssertionError None).
Proof.
  intros Hs. step_get_data.
  destruct (load_acs (person_request (this h) st d s dl) (disk h)) as [[data|e] w1] eqn:H1;
    cbn [this disk calls fst snd].
  - rewrite bool_decide_eq_false_2 by exact Hs. cbn [this disk calls fst snd].
    eexists _, _. split; [reflexivity|]. cbn [this disk calls fst snd]. split; [reflexivity|]. split; [|right; reflexivity].
    intros l r Hin. apply elem_of_app in Hin as [Hin|Hin]; [exact Hin|].
    apply list_elem_of_singleton in Hin. discriminate.
  - eexists _, _. split; [reflexivity|]. cbn [this disk calls fst snd]. split; [reflexivity|]. split; [|left; reflexivity].
    intros l r Hin. apply elem_of_app in Hin as [Hin|Hin]; [exact Hin|].
    apply list_elem_of_singleton in Hin. discriminate.
Qed.

(** The instance is left as it was by every call. *)
Lemma get_data_this (st : option (list string)) (d : Q) (s : Z) (jh dl : bool) (h : heap) :
  this (run st d s jh dl h).2 = this h.
Proof.
  step_get_data.
  destruct (load_acs (person_request (this h) st d s dl) (disk h)) as [[data|e] w1];
    cbn [this disk calls fst snd]; [|reflexivity].
  destruct jh; cbn [this disk calls fst snd]; [|reflexivity].
  destruct (bool_decide (_survey (this h) = "person")); cbn [this disk calls fst snd]; [|reflexivity].
  destruct (getitem data "SERIALNO") as [serials|e]; cbn [this disk calls fst snd]; [|reflexivity].
  destruct (load_acs (household_request (this h) st serials dl) w1) as [[hh|e] w2];
    cbn [this disk calls fst snd]; [|reflexivity].
  destruct (getitem_columns hh _) as [projected|e]; cbn [this disk calls fst snd]; [|reflexivity].
  destruct (merge data projected "SERIALNO") as [joined|e]; cbn [this disk calls fst snd]; [|reflexivity].
  destruct (bool_decide (len joined = len data)); reflexivity.
Qed.

(** Every call starts with the load of the key made of the instance's
    fields and the call's arguments. *)
Lemma get_data_first_call (st : option (list string)) (d : Q) (s : Z) (jh dl : bool)
    (h : heap) :
  exists rest, calls (run st d s jh dl h).2
               = calls h ++ LoadAcs (person_request (this h) st d s dl) :: rest.
Proof.
  step_get_data.
  destruct (load_acs (person_request (this h) st d s dl) (disk h)) as [[data|e] w1];
    cbn [this disk calls fst snd]; [|exists []; reflexivity].
  destruct jh; cbn [this disk calls fst snd]; [|exists []; reflexivity].
  destruct (bool_decide (_survey (this h) = "person")); cbn [this disk calls fst snd]; [|exists []; reflexivity].
  destruct (getitem data "SERIALNO") as [serials|e]; cbn [this disk calls fst snd]; [|exists []; reflexivity].
  destruct (load_acs (household_request (this h) st serials dl) w1) as [[hh|e] w2];
    cbn [this disk calls fst snd]; [|eexists; rewrite <- app_assoc; reflexivity].
  destruct (getitem_columns hh _) as [projected|e]; cbn [this disk calls fst snd];
    [|eexists; rewrite <- app_assoc; reflexivity].
  destruct (merge data projected "SERIALNO") as [joined|e]; cbn [this disk calls fst snd];
    [|eexists; rewrite <- !app_assoc; reflexivity].
  destruct (bool_decide (len joined = len data)); cbn [this disk calls fst snd];
    eexists; rewrite <- !app_assoc; reflexivity.
Qed.

(** C8. No call to [get_data], whatever its arguments and whether it
    returns or raises, changes the instance's fields; hence a second call
    with the same arguments, made in the state left by the first, requests
    the same key from [load_acs] as the first did. *)
Theorem get_data_stateless (st : option (list string)) (d : Q) (s : Z) (jh dl : bool)
    (h : heap) :
  let h1 := (run st d s jh dl h).2 in
  let h2 := (run st d s jh dl h1).2 in
  this h1 = this h /\
  (_survey_year (this h1) = _survey_year (this h) /\ _horizon (this h1) = _horizon (this h) /\
   _survey (this h1) = _survey (this h) /\ _root_dir (this h1) = _root_dir (this h)) /\
  this h2 = this h /\
  (exists rest, calls h1 = calls h ++ LoadAcs (person_request (this h) st d s dl) :: rest) /\
  (exists rest, calls h2 = calls h1 ++ LoadAcs (person_request (this h) st d s dl) :: rest).
Proof.
  intros h1 h2.
  assert (E1 : this h1 = this h) by apply get_data_this.
  assert (E2 : this h2 = this h) by (unfold h2; rewrite get_data_this; exact E1).
  split; [exact E1|]. split; [rewrite E1; auto|]. split; [exact E2|].
  split; [apply get_data_first_call|].
  rewrite <- E1. apply get_data_first_call.
Qed.

(** C1. With [join_household=True], once the person table [data] is
    loaded: a call that returns, returns a table with as many rows as
    [data]; and a call whose merge produced a table of another length
    raises the assertion error whose message names the two lengths. *)
Theorem get_data_join_row_count (st : option (list string)) (d : Q) (s : Z) (dl : bool)
    (h : heap) (data : DataFrame) (w1 : world) :
  load_acs (person_request (this h) st d s dl) (disk h) = (Ok data, w1) ->
  (forall t h', run st d s true dl h = (Ok t, h') -> len t = len data) /\
  (forall l r joined,
      last (calls (run st d s true dl h).2) = Some (Merge l r) ->
      merge l r "SERIALNO" = Ok joined ->
      len joined <> len data ->
      l = data /\
      (run st d s true dl h).1
      = Raise (AssertionError (Some (lengths_message (len joined) (len data))))).
Proof.
  intros H1. split.
  - intros t h' H. apply get_data_join_inv in H
      as (data' & hh & projected & w1' & w2 & serials & H1' & _ & _ & _ & _ & _ & Hlen & _).
    rewrite H1 in H1'. inversion H1'; subst. exact Hlen.
  - step_get_data. rewrite H1; cbn [this disk calls fst snd].
    destruct (bool_decide (_survey (this h) = "person")) eqn:Hs; cbn [this disk calls fst snd];
      [|intros l r joined Hl; rewrite last_snoc in Hl; discriminate].
    destruct (getitem data "SERIALNO") as [serials|e]; cbn [this disk calls fst snd];
      [|intros l r joined Hl; rewrite last_snoc in Hl; discriminate].
    destruct (load_acs (household_request (this h) st serials dl) w1) as [[hh|e] w2];
      cbn [this disk calls fst snd];
      [|intros l r joined Hl; rewrite last_snoc in Hl; discriminate].
    destruct (getitem_columns hh _) as [projected|e]; cbn [this disk calls fst snd];
      [|intros l r joined Hl; rewrite last_snoc in Hl; discriminate].
    destruct (merge data projected "SERIALNO") as [joined'|e] eqn:Hm;
      cbn [this disk calls fst snd].
    + destruct (bool_decide (len joined' = len data)) eqn:Hlen; cbn [this disk calls fst snd];
        intros l r joined Hl Hj Hne; rewrite last_snoc in Hl; inversion Hl; subst;
        rewrite Hm in Hj; inversion Hj; subst.
      * apply bool_decide_eq_true in Hlen. contradiction.
      * split; reflexivity.
    + intros l r joined Hl Hj _. rewrite last_snoc in Hl. inversion Hl; subst.
      rewrite Hm in Hj. discriminate.
Qed.

(** C3. A call with [join_household=True] that returns has loaded the
    person table [data], then the household table [hh] by a request for the
    'household' survey whose [serial_filter_list] is the SERIALNO column of
    [data] (one serial number per person row, in row order), and has merged
    [data] with a selection of [hh]; the returned table has the columns of
    [data] followed by the columns of [hh] that [data] does not have; and each
    returned row is a person row extended with the cells, under those columns,
    of a household row carrying the same SERIALNO. *)
Theorem get_data_join_columns (st : option (list string)) (d : Q) (s : Z) (dl : bool)
    (h h' : heap) (t : DataFrame) :
  run st d s true dl h = (Ok t, h') ->
  exists (data hh selected : DataFrame) (w1 w2 : world) (serials : list value)
         (extra : list string),
    let person_call :=
      {| root_dir := _root_dir (this h); year := _survey_year (this h); states := st;
         horizon := _horizon (this h); survey := _survey (this h);
         density := Some d; random_seed := Some s;
         serial_filter_list := None; download := dl |} in
    let household_call :=
      {| root_dir := _root_dir (this h); year := _survey_year (this h); states := st;
         horizon := _horizon (this h); survey := "household";
         density := None; random_seed := None;
         serial_filter_list := Some serials; download := dl |} in
    load_acs person_call (disk h) = (Ok data, w1) /\
    serials = map (field data "SERIALNO") (records data) /\
    load_acs household_call w1 = (Ok hh, w2) /\
    calls h' = calls h ++ [LoadAcs person_call; LoadAcs household_call; Merge data selected] /\
    "SERIALNO" ∈ columns data /\
    "SERIALNO" ∈ columns hh /\
    columns t = columns data ++ extra /\
    extra ≡ₚ elements (household_only data hh) /\
    (list_to_set (columns t) : gset string)
    = list_to_set (columns data) ∪ household_only data hh /\
    (forall row, row ∈ records t ->
       exists p q, p ∈ records data /\ q ∈ records hh /\
                   field data "SERIALNO" p = field hh "SERIALNO" q /\
                   row.2 = p.2 ++ map (fun c => field hh c q) extra).
Proof.
  intros H. apply get_data_join_inv in H
    as (data & hh & projected & w1 & w2 & serials & H1 & _ & Hser & H2 & Hproj & Hm & _ & Hh').
  fold (household_only data hh) in Hproj.
  set (hc := household_only data hh ∪ list_to_set ["SERIALNO"]) in Hproj.
  assert (Hi : exists i, get_loc "SERIALNO" (columns data) = Some i).
  { unfold getitem in Hser. destruct (get_loc "SERIALNO" (columns data)); [eauto|discriminate]. }
  destruct Hi as [i Hi].
  assert (Hkd : "SERIALNO" ∈ columns data) by (eapply get_loc_elem_of, Hi).
  assert (Hnk : "SERIALNO" ∉ household_only data hh).
  { unfold household_only. rewrite elem_of_difference, !elem_of_list_to_set. tauto. }
  assert (Ehc : hc = {["SERIALNO"]} ∪ household_only data hh).
  { unfold hc. simpl. rewrite (right_id_L ∅ (∪)). apply (comm_L (∪)). }
  apply getitem_columns_inv in Hproj as (Hcols & Hrecs & Hsub).
  assert (Hnd : NoDup (columns projected)) by (rewrite Hcols; apply NoDup_elements).
  assert (Hkin : "SERIALNO" ∈ elements hc).
  { apply elem_of_elements. rewrite Ehc. apply elem_of_union_l, elem_of_singleton.
    reflexivity. }
  destruct (get_loc_is_Some _ _ Hkin) as [j Hj].
  pose proof (get_loc_lookup _ _ _ Hj) as Hjl.
  assert (Hdis : forall c, c ∈ columns projected -> c <> "SERIALNO" -> c ∉ columns data).
  { intros c Hc Hne. rewrite Hcols in Hc. apply elem_of_elements in Hc.
    rewrite Ehc in Hc. apply elem_of_union in Hc as [Hc|Hc].
    - apply elem_of_singleton in Hc. contradiction.
    - unfold household_only in Hc. rewrite elem_of_difference, !elem_of_list_to_set in Hc.
      tauto. }
  rewrite <- Hcols in Hj.
  rewrite (merge_no_overlap data projected "SERIALNO" i j Hi Hj Hnd Hdis) in Hm.
  inversion Hm; subst t; clear Hm. rewrite Hcols in *.
  assert (Hperm : delete j (elements hc) ≡ₚ elements (household_only data hh)).
  { apply (Permutation_cons_inv (a := "SERIALNO")).
    rewrite <- (delete_Permutation _ _ _ Hjl). rewrite Ehc.
    apply elements_union_singleton. exact Hnk. }
  exists data, hh, projected, w1, w2, serials, (delete j (elements hc)).
  cbv zeta.
  split; [exact H1|]. split.
  { unfold getitem in Hser. rewrite Hi in Hser. inversion Hser.
    apply map_ext. intros p. unfold field. rewrite Hi. reflexivity. }
  split; [exact H2|]. split; [rewrite Hh'; reflexivity|]. split; [exact Hkd|].
  split; [apply Hsub; exact Hkin|]. split; [reflexivity|]. split; [exact Hperm|]. split.
  - simpl. rewrite list_to_set_app_L. f_equal.
    rewrite Hperm. apply list_to_set_elements_L.
  - simpl. intros row Hrow.
    apply list_elem_of_lookup in Hrow as [n Hrow].
    rewrite list_lookup_imap in Hrow.
    destruct (merge_rows i j (records data) (records projected) !! n) as [vs|] eqn:Hvs;
      simpl in Hrow; [|discriminate].
    inversion Hrow; subst row; clear Hrow. simpl.
    apply list_elem_of_lookup_2 in Hvs.
    apply elem_of_merge_rows in Hvs as (p & r & Hp & Hr & Hkey & ->).
    rewrite Hrecs in Hr. apply list_elem_of_fmap in Hr as (q & -> & Hq).
    exists p, q. split; [exact Hp|]. split; [exact Hq|]. split.
    + unfold field at 1. rewrite Hi. rewrite <- Hkey. unfold cell at 1. simpl.
      rewrite list_lookup_fmap, Hjl. reflexivity.
    + simpl. rewrite delete_map. reflexivity.
Qed.

End GetData.

(** ** The properties of [get_data] on stored tables *)

Lemma get_data_join_row_count_witness :
  (get_data load_stored None 1%Q 0%Z true false
     (start source2018 (persons2, households_short))).1
  = Raise (AssertionError (Some "Lengths do not match after join: 2 vs 3")).
Proof.
  destruct (get_data_join_row_count load_stored None 1%Q 0%Z false
              (start source2018 (persons2, households_short)) persons2
              (persons2, households_short)) as [_ H]; [reflexivity|].
  destruct (H persons2
              (mkDF ["SERIALNO"; "NP"; "HINCP"] [(0%Z, [VInt 101; VInt 2; VInt 52000])])
              (mkDF ["SERIALNO"; "SPORDER"; "AGEP"; "ST"; "NP"; "HINCP"]
                 [(0%Z, [VInt 101; VInt 1; VInt 40; VInt 6; VInt 2; VInt 52000]);
                  (1%Z, [VInt 101; VInt 2; VInt 12; VInt 6; VInt 2; VInt 52000])]))
    as [_ E].
  - vm_compute. reflexivity.
  - vm_compute. reflexivity.
  - vm_compute. lia.
  - rewrite E. vm_compute. reflexivity.
Defined.

Lemma get_data_join_columns_witness :
  exists (t : DataFrame) (h' : heap),
    get_data load_stored None 1%Q 0%Z true false
      (start source2018 (persons2, households_ok)) = (Ok t, h') /\
    exists (selected : DataFrame) (extra : list string),
      calls h' =
      [LoadAcs {| root_dir := "data"; year := "2018"; states := None; horizon := "1-Year";
                  survey := "person"; density := Some 1%Q; random_seed := Some 0%Z;
                  serial_filter_list := None; download := false |};
       LoadAcs {| root_dir := "data"; year := "2018"; states := None; horizon := "1-Year";
                  survey := "household"; density := None; random_seed := None;
                  serial_filter_list := Some [VInt 101; VInt 101; VInt 205];
                  download := false |};
       Merge persons2 selected] /\
      columns t = columns persons2 ++ extra /\
      extra ≡ₚ elements (household_only persons2 households_ok) /\
      (list_to_set (columns t) : gset string)
      = list_to_set (columns persons2) ∪ household_only persons2 households_ok.
Proof.
  destruct (get_data load_stored None 1%Q 0%Z true false
              (start source2018 (persons2, households_ok))) as [[t|e] h'] eqn:E;
    [|apply (f_equal fst) in E; vm_compute in E; discriminate].
  exists t, h'. split; [reflexivity|].
  destruct (get_data_join_columns load_stored None 1%Q 0%Z false
              (start source2018 (persons2, households_ok)) h' t E)
    as (data & hh & selected & w1 & w2 & serials & extra
        & H1 & Hser & H2 & Hcalls & _ & _ & Hc & Hp & Hs & _).
  vm_compute in H1. inversion H1; subst data w1.
  vm_compute in Hser. subst serials.
  vm_compute in H2. inversion H2; subst hh w2.
  exists selected, extra. split; [exact Hcalls|].
  split; [exact Hc|]. split; [exact Hp | exact Hs].
Defined.

Lemma get_data_join_requires_person_witness :
  _survey source2018_household <> "person" /\
  exists (e : exn) (h' : heap),
    get_data load_stored None 1%Q 0%Z true false
      (start source2018_household (persons2, households_ok)) = (Raise e, h') /\
    calls h' = [LoadAcs (person_request source2018_household None 1%Q 0%Z false)] /\
    e = AssertionError None.
Proof.
  assert (Hs : _survey source2018_household <> "person") by discriminate.
  split; [exact Hs|].
  destruct (get_data_join_requires_person load_stored None 1%Q 0%Z false
              (start source2018_household (persons2, households_ok)) Hs)
    as (e & h' & Hrun & Hcalls & _ & _).
  exists e, h'. split; [exact Hrun|]. split; [exact Hcalls|].
  vm_compute in Hrun. inversion Hrun. reflexivity.
Defined.

Example get_data_no_join_ex :
  (get_data load_stored None 1%Q 0%Z false false
     (start source2018 (persons2, households_ok))).1 = Ok persons2.
Proof. vm_compute. reflexivity. Qed.

(** ** Exact behaviour of the mask filters *)

Lemma field_same_columns (t t' : DataFrame) (c : string) (r : record) :
  columns t' = columns t -> field t' c r = field t c r.
Proof. intros E. unfold field. rewrite E. reflexivity. Qed.

Lemma where_chain_spec (steps : list (string * (value -> bool))) (t : DataFrame) :
  where_chain steps t =
  match first_missing (map fst steps) (columns t) with
  | Some c => Raise (KeyError c)
  | None => Ok (mkDF (columns t) (List.filter (passes t steps) (records t)))
  end.
Proof.
  revert t. induction steps as [|[c p] rest IH]; intros t; simpl.
  - destruct t as [cols rows]; simpl. rewrite filter_all_true; [reflexivity|].
    intros x _. reflexivity.
  - rewrite where_spec. destruct (get_loc c (columns t)) as [i|] eqn:E; simpl; [|reflexivity].
    rewrite IH; simpl. destruct (first_missing (map fst rest) (columns t)); [reflexivity|].
    rewrite filter_filter_andb. do 2 f_equal. apply filter_ext. intros r.
    unfold passes; simpl. unfold field at 2; simpl. rewrite E. reflexivity.
Qed.

(** X1. [adult_filter] keeps exactly the rows with AGEP > 16, PINCP > 100,
    WKHP > 0 and PWGTP >= 1 (a NaN cell fails its test), in order and with
    the columns unchanged; a table lacking one of the four columns makes it
    raise [KeyError] for the first one missing, in that order, whatever the
    rows. *)
Theorem adult_filter_keeps_exactly (t : DataFrame) :
  adult_filter t =
  match first_missing ["AGEP"; "PINCP"; "WKHP"; "PWGTP"] (columns t) with
  | Some c => Raise (KeyError c)
  | None =>
      Ok (mkDF (columns t)
            (List.filter
               (fun r => cell_gt (field t "AGEP" r) 16 && cell_gt (field t "PINCP" r) 100
                         && cell_gt (field t "WKHP" r) 0 && cell_ge (field t "PWGTP" r) 1)
               (records t)))
  end.
Proof.
  change (adult_filter t)
    with (where_chain [("AGEP", fun v => cell_gt v 16); ("PINCP", fun v => cell_gt v 100);
                       ("WKHP", fun v => cell_gt v 0); ("PWGTP", fun v => cell_ge v 1)] t).
  rewrite where_chain_spec. cbn [map fst].
  destruct (first_missing _ (columns t)); [reflexivity|].
  do 2 f_equal. apply filter_ext. intros r. unfold passes; simpl.
  rewrite andb_true_r, !andb_assoc. reflexivity.
Qed.

(** X2. [travel_time_filter] keeps exactly the rows with AGEP > 16,
    PWGTP >= 1 and ESR == 1, in order; it raises [KeyError] for the first of
    AGEP, PWGTP, ESR that the table lacks. *)
Theorem travel_time_filter_keeps_exactly (t : DataFrame) :
  travel_time_filter t =
  match first_missing ["AGEP"; "PWGTP"; "ESR"] (columns t) with
  | Some c => Raise (KeyError c)
  | None =>
      Ok (mkDF (columns t)
            (List.filter
               (fun r => cell_gt (field t "AGEP" r) 16 && cell_ge (field t "PWGTP" r) 1
                         && cell_eq (field t "ESR" r) 1)
               (records t)))
  end.
Proof.
  change (travel_time_filter t)
    with (where_chain [("AGEP", fun v => cell_gt v 16); ("PWGTP", fun v => cell_ge v 1);
                       ("ESR", fun v => cell_eq v 1)] t).
  rewrite where_chain_spec. cbn [map fst].
  destruct (first_missing _ (columns t)); [reflexivity|].
  do 2 f_equal. apply filter_ext. intros r. unfold passes; simpl.
  rewrite andb_true_r, !andb_assoc. reflexivity.
Qed.

(** X3. [employment_filter] keeps exactly the rows with 16 < AGEP < 90 and
    PWGTP >= 1, in order; it raises [KeyError] for the first of AGEP, PWGTP
    that the table lacks. *)
Theorem employment_filter_keeps_exactly (t : DataFrame) :
  employment_filter t =
  match first_missing ["AGEP"; "PWGTP"] (columns t) with
  | Some c => Raise (KeyError c)
  | None =>
      Ok (mkDF (columns t)
            (List.filter
               (fun r => cell_gt (field t "AGEP" r) 16 && cell_lt (field t "AGEP" r) 90
                         && cell_ge (field t "PWGTP" r) 1)
               (records t)))
  end.
Proof.
  change (employment_filter t)
    with (where_chain [("AGEP", fun v => cell_gt v 16); ("AGEP", fun v => cell_lt v 90);
                       ("PWGTP", fun v => cell_ge v 1)] t).
  rewrite where_chain_spec. cbn [map fst first_missing].
  destruct (get_loc "AGEP" (columns t)); [|reflexivity].
  destruct (get_loc "PWGTP" (columns t)); [|reflexivity].
  do 2 f_equal. apply filter_ext. intros r. unfold passes; simpl.
  rewrite andb_true_r, !andb_assoc. reflexivity.
Qed.

Example employment_filter_ex :
  employment_filter
    (mkDF ["PWGTP"; "AGEP"]
       [(0%Z, [VInt 1; VInt 17]); (1%Z, [VInt 0; VInt 40]); (2%Z, [VInt 9; VInt 90]);
        (3%Z, [VInt 9; VNaN]); (4%Z, [VInt 2; VInt 89])])
  = Ok (mkDF ["PWGTP"; "AGEP"] [(0%Z, [VInt 1; VInt 17]); (4%Z, [VInt 2; VInt 89])]).
Proof. reflexivity. Qed.

Example travel_time_filter_empty_table :
  travel_time_filter (mkDF ["AGEP"; "PWGTP"] []) = Raise (KeyError "ESR").
Proof. reflexivity. Qed.

(** ** Exact behaviour of the [ACSMobility] filter *)

Lemma mobility_out_false (v : value) :
  cell_le v 18 || cell_ge v 35 = false <->
  v = VNaN \/ exists z, v = VInt z /\ (18 < z < 35)%Z.
Proof.
  destruct v as [z|]; simpl.
  - rewrite orb_false_iff, Z.leb_gt, Z.leb_gt. split.
    + intros [H1 H2]. right. exists z. split; [reflexivity | lia].
    + intros [H|(z' & E & H)]; [discriminate|]. inversion E; subst. lia.
  - split; [intros _; left; reflexivity | reflexivity].
Qed.

Lemma NoDup_index_inj (l : list record) (r r' : record) :
  NoDup (map fst l) -> r ∈ l -> r' ∈ l -> r.1 = r'.1 -> r = r'.
Proof.
  induction l as [|x l IH]; simpl; intros Hnd Hr Hr' E.
  - apply elem_of_nil in Hr. contradiction.
  - apply NoDup_cons in Hnd as [Hx Hnd].
    apply elem_of_cons in Hr as [->|Hr]; apply elem_of_cons in Hr' as [->|Hr'].
    + reflexivity.
    + exfalso. apply Hx. rewrite E. apply list_elem_of_fmap. eauto.
    + exfalso. apply Hx. rewrite <- E. apply list_elem_of_fmap. eauto.
    + apply IH; assumption.
Qed.

Lemma filter_ext_elem_of {A} (p q : A -> bool) (l : list A) :
  (forall x, x ∈ l -> p x = q x) -> List.filter p l = List.filter q l.
Proof.
  intros H. apply filter_ext_in. intros x Hx. apply H, list_elem_of_In, Hx.
Qed.

(** X4. The [ACSMobility] filter drops by index label: a row is kept if and
    only if no row carrying its label (itself included) has AGEP <= 18 or
    AGEP >= 35.  Hence every kept row has AGEP missing (NaN) or strictly
    between 18 and 35, and when the index labels are distinct the kept rows
    are exactly those, in order.  Without an AGEP column it raises
    [KeyError]. *)
Theorem mobility_preprocess_keeps_exactly (t : DataFrame) :
  match get_loc "AGEP" (columns t) with
  | None => mobility_preprocess t = Raise (KeyError "AGEP")
  | Some i =>
      exists t',
        mobility_preprocess t = Ok t' /\
        columns t' = columns t /\
        (forall r, r ∈ records t' <->
                   r ∈ records t /\
                   forall r', r' ∈ records t -> r'.1 = r.1 -> mobility_out i r' = false) /\
        (forall r, r ∈ records t' ->
                   cell i r = VNaN \/ exists z, cell i r = VInt z /\ (18 < z < 35)%Z) /\
        (NoDup (index t) ->
         records t' = List.filter (fun r => negb (mobility_out i r)) (records t))
  end.
Proof.
  rewrite mobility_preprocess_spec.
  destruct (get_loc "AGEP" (columns t)) as [i|]; [|reflexivity].
  set (L := map fst (List.filter (mobility_out i) (records t))).
  assert (HL : forall l, l ∈ L <-> exists r', r' ∈ records t /\ r'.1 = l /\ mobility_out i r' = true).
  { intros l. unfold L. rewrite list_elem_of_fmap. split.
    - intros (r' & -> & Hr'). apply elem_of_filter in Hr' as [Hr' Hm]. eauto.
    - intros (r' & Hr' & <- & Hm). exists r'. split; [reflexivity|].
      apply elem_of_filter. auto. }
  assert (Hkeep : forall r,
             r ∈ List.filter (fun r => bool_decide (r.1 ∉ L)) (records t) <->
             r ∈ records t /\
             forall r', r' ∈ records t -> r'.1 = r.1 -> mobility_out i r' = false).
  { intros r. rewrite elem_of_filter, bool_decide_eq_true, HL. split.
    - intros [Hr Hn]. split; [exact Hr|]. intros r' Hr' E.
      destruct (mobility_out i r') eqn:Hm; [|reflexivity]. exfalso. apply Hn. eauto.
    - intros [Hr Hall]. split; [exact Hr|]. intros (r' & Hr' & E & Hm).
      rewrite (Hall r' Hr' E) in Hm. discriminate. }
  eexists. split; [reflexivity|]. simpl. split; [reflexivity|]. split; [exact Hkeep|]. split.
  - intros r Hr. apply Hkeep in Hr as [Hr Hall].
    apply mobility_out_false. apply (Hall r Hr). reflexivity.
  - intros Hnd. apply filter_ext_elem_of. intros r Hr.
    destruct (mobility_out i r) eqn:Hm; simpl.
    + apply bool_decide_eq_false. intros Hn. apply Hn. apply HL. eauto.
    + apply bool_decide_eq_true. intros Hin. apply HL in Hin as (r' & Hr' & E & Hm').
      rewrite (NoDup_index_inj (records t) r' r Hnd Hr' Hr E) in Hm'. congruence.
Qed.

(** Unlike the mask filters, which drop a row whose tested cell is NaN, the
    [ACSMobility] filter keeps a row without age. *)
Example mobility_keeps_missing_age :
  mobility_preprocess (mkDF ["AGEP"] [(0%Z, [VNaN]); (1%Z, [VInt 18]); (2%Z, [VInt 34])])
  = Ok (mkDF ["AGEP"] [(0%Z, [VNaN]); (2%Z, [VInt 34])]).
Proof. vm_compute. reflexivity. Qed.

(** ** Row locality *)

Lemma column_filter_app (f : DataFrame -> result DataFrame) (cols : list string)
    (rows1 rows2 : list record) :
  column_filter f ->
  f (mkDF cols (rows1 ++ rows2)) =
  (a ← f (mkDF cols rows1); b ← f (mkDF cols rows2);
   Ok (mkDF cols (records a ++ records b))).
Proof.
  intros [g Hg]. rewrite !Hg; simpl. destruct (g cols) as [e|q]; simpl; [reflexivity|].
  rewrite List.filter_app. reflexivity.
Qed.

(** X5. The mask filters decide each row on its own cells: filtering a
    table made of two blocks of rows gives the filtered first block followed
    by the filtered second block (and raises the same [KeyError] as on either
    block when a column is missing). *)
Theorem mask_filters_row_local :
  Forall (fun f : DataFrame -> result DataFrame =>
            forall cols rows1 rows2,
              f (mkDF cols (rows1 ++ rows2)) =
              (a ← f (mkDF cols rows1); b ← f (mkDF cols rows2);
               Ok (mkDF cols (records a ++ records b))))
    [adult_filter; public_coverage_filter; travel_time_filter; employment_filter;
     identity_preprocess].
Proof.
  repeat first [apply Forall_nil_2 | apply Forall_cons_2];
    intros cols rows1 rows2; apply column_filter_app.
  - apply adult_filter_column_filter.
  - apply public_coverage_filter_column_filter.
  - apply travel_time_filter_column_filter.
  - apply employment_filter_column_filter.
  - apply column_filter_ok.
Qed.

(** The [ACSMobility] filter is not row local: two blocks that reuse index
    labels (as two tables read separately do) lose rows when filtered
    together. *)
Example mobility_not_row_local :
  mobility_preprocess (mkDF ["AGEP"] ([(0%Z, [VInt 25])] ++ [(0%Z, [VInt 70])]))
  = Ok (mkDF ["AGEP"] []) /\
  mobility_preprocess (mkDF ["AGEP"] [(0%Z, [VInt 25])]) = Ok (mkDF ["AGEP"] [(0%Z, [VInt 25])]).
Proof. split; vm_compute; reflexivity. Qed.

(** ** More on column selection and the join *)

Lemma get_loc_None (c : string) (cols : list string) :
  c ∉ cols -> get_loc c cols = None.
Proof.
  intros H. destruct (get_loc c cols) as [i|] eqn:E; [|reflexivity].
  exfalso. apply H. eapply get_loc_elem_of, E.
Qed.

Lemma get_locs_ok (cs cols : list string) :
  (forall c, c ∈ cs -> c ∈ cols) -> exists locs, get_locs cs cols = Some locs.
Proof.
  induction cs as [|c cs IH]; simpl; intros H; [eauto|].
  destruct (get_loc_is_Some c cols) as [i ->]; [apply H; left|].
  destruct IH as [locs ->]; [intros x Hx; apply H; right; exact Hx|]. simpl. eauto.
Qed.

Lemma get_locs_missing (cs cols : list string) (k : string) :
  k ∈ cs -> k ∉ cols -> get_locs cs cols = None.
Proof.
  induction cs as [|c cs IH]; simpl; intros Hk Hn.
  - apply elem_of_nil in Hk. contradiction.
  - destruct (get_loc c cols) as [i|] eqn:E; [|reflexivity].
    apply elem_of_cons in Hk as [->|Hk].
    + exfalso. apply Hn. eapply get_loc_elem_of, E.
    + rewrite (IH Hk Hn). reflexivity.
Qed.

Lemma filter_only {A} `{EqDecision A} (p : A -> bool) (l : list A) (k : A) :
  NoDup l -> k ∈ l -> p k = true -> (forall x, x ∈ l -> x <> k -> p x = false) ->
  List.filter p l = [k].
Proof.
  induction l as [|x l IH]; simpl; intros Hnd Hk Hpk Hrest.
  - apply elem_of_nil in Hk. contradiction.
  - apply NoDup_cons in Hnd as [Hx Hnd]. destruct (decide (x = k)) as [->|Hne].
    + rewrite Hpk. f_equal. apply filter_all_false. intros y Hy. apply Hrest; [right; exact Hy|].
      intros ->. contradiction.
    + rewrite (Hrest x (list_elem_of_here x l) Hne).
      apply elem_of_cons in Hk as [Hk|Hk]; [congruence|].
      apply IH; try assumption. intros y Hy. apply Hrest. right. exact Hy.
Qed.

Lemma length_bind_singleton {A B} (f : A -> B) (l : list A) :
  length (l ≫= fun x => [f x]) = length l.
Proof.
  induction l as [|x l IH]; [reflexivity|]. rewrite bind_cons, length_app, IH. reflexivity.
Qed.

Lemma length_merge_rows (i j : nat) (left right : list record) :
  length (merge_rows i j left right) =
  sum_list (map (fun l => length (List.filter (fun r => bool_decide (cell j r = cell i l)) right))
              left).
Proof.
  unfold merge_rows. induction left as [|l left IH]; [reflexivity|].
  rewrite bind_cons, length_app, length_bind_singleton, IH. reflexivity.
Qed.

Lemma length_filter_map {A B} (f : A -> B) (p : B -> bool) (l : list A) :
  length (List.filter p (map f l)) = length (List.filter (fun x => p (f x)) l).
Proof.
  induction l as [|x l IH]; simpl; [reflexivity|].
  destruct (p (f x)); simpl; rewrite IH; reflexivity.
Qed.

Lemma sum_list_ones {A} (f : A -> nat) (l : list A) :
  (forall x, x ∈ l -> f x = 1) -> sum_list (map f l) = length l.
Proof.
  induction l as [|x l IH]; simpl; intros H; [reflexivity|].
  rewrite (H x) by left. rewrite IH; [reflexivity|]. intros y Hy. apply H. right. exact Hy.
Qed.

Lemma household_cols_elem_of (data hh : DataFrame) (c : string) :
  c ∈ elements (household_only data hh ∪ list_to_set ["SERIALNO"]) <->
  c = "SERIALNO" \/ (c ∈ columns hh /\ c ∉ columns data).
Proof.
  rewrite elem_of_elements, elem_of_union. unfold household_only.
  rewrite elem_of_difference, !elem_of_list_to_set, list_elem_of_singleton. tauto.
Qed.

(** The joined table, when both tables have the key: its length is the
    number of (person row, household row) pairs with equal serial numbers. *)
Lemma join_of_loaded (data hh : DataFrame) :
  "SERIALNO" ∈ columns data -> "SERIALNO" ∈ columns hh ->
  exists projected joined,
    getitem_columns hh (elements (household_only data hh ∪ list_to_set ["SERIALNO"]))
    = Ok projected /\
    merge data projected "SERIALNO" = Ok joined /\
    len joined = sum_list (map (household_matches data hh) (records data)).
Proof.
  intros Hd Hh.
  set (hc := elements (household_only data hh ∪ list_to_set ["SERIALNO"])).
  destruct (get_loc_is_Some _ _ Hd) as [i Hi].
  assert (Hkin : "SERIALNO" ∈ hc) by (apply household_cols_elem_of; left; reflexivity).
  destruct (get_loc_is_Some _ _ Hkin) as [j Hj].
  pose proof (get_loc_lookup _ _ _ Hj) as Hjl.
  destruct (get_locs_ok hc (columns hh)) as [locs Hlocs].
  { intros c Hc. apply household_cols_elem_of in Hc as [->|[Hc _]]; assumption. }
  assert (Hproj : exists projected, getitem_columns hh hc = Ok projected).
  { unfold getitem_columns. rewrite Hlocs. simpl. eauto. }
  destruct Hproj as [projected Hproj]. exists projected.
  destruct (getitem_columns_inv _ _ _ Hproj) as (Hcols & Hrecs & _).
  assert (Hm : merge data projected "SERIALNO" =
               Ok (mkDF (columns data ++ delete j (columns projected))
                     (imap (fun n vs => (Z.of_nat n, vs))
                        (merge_rows i j (records data) (records projected))))).
  { apply merge_no_overlap; rewrite ?Hcols; [exact Hi | exact Hj | apply NoDup_elements |].
    intros c Hc Hne. apply household_cols_elem_of in Hc as [Hc|[_ Hc]]; [contradiction|exact Hc]. }
  eexists. split; [exact Hproj|]. split; [exact Hm|].
  unfold len; simpl. rewrite length_imap, length_merge_rows. f_equal.
  apply map_ext. intros p. unfold household_matches. rewrite Hrecs, length_filter_map.
  f_equal. apply filter_ext. intros q.
  assert (Ep : field data "SERIALNO" p = cell i p) by (unfold field; rewrite Hi; reflexivity).
  assert (Eq : cell j (q.1, map (fun c => field hh c q) hc) = field hh "SERIALNO" q).
  { unfold cell; simpl. rewrite list_lookup_fmap, Hjl. reflexivity. }
  rewrite Ep, Eq. reflexivity.
Qed.

(** ** Outcomes of [get_data] *)

Section GetDataOutcomes.

Context {world : Type}.
Variable load_acs : load_request -> world -> result DataFrame * world.

Abbreviation run := (get_data load_acs).

Ltac step_get_data :=
  unfold get_data, mbind, mret, Prog_bind, Prog_ret, get_self, call_load_acs,
    call_merge, py_assert, lift; cbn [this disk calls fst snd].

(** X6. The outcome of the first [load_acs] is the outcome of the call
    whenever [join_household] is false or that load raised: the table is
    returned as loaded, an exception is passed on unchanged, and [load_acs] is
    called once and nothing else. *)
Theorem get_data_first_load_outcome (st : option (list string)) (d : Q) (s : Z)
    (jh dl : bool) (h : heap) (r : result DataFrame) (w : world) :
  load_acs (person_request (this h) st d s dl) (disk h) = (r, w) ->
  jh = false \/ is_ok r = false ->
  run st d s jh dl h =
  (r, {| this := this h; disk := w;
         calls := calls h ++ [LoadAcs (person_request (this h) st d s dl)] |}).
Proof.
  intros H1 Hc. step_get_data. rewrite H1; cbn [this disk calls fst snd].
  destruct r as [data|e]; [|reflexivity].
  destruct Hc as [->|Hc]; [reflexivity | discriminate].
Qed.

(** X7. With [join_household=True] on a person source, a person table
    without a SERIALNO column makes the call raise [KeyError] for SERIALNO
    before the household table is requested. *)
Theorem get_data_person_without_serialno (st : option (list string)) (d : Q) (s : Z)
    (dl : bool) (h : heap) (data : DataFrame) (w1 : world) :
  load_acs (person_request (this h) st d s dl) (disk h) = (Ok data, w1) ->
  _survey (this h) = "person" ->
  "SERIALNO" ∉ columns data ->
  run st d s true dl h =
  (Raise (KeyError "SERIALNO"),
   {| this := this h; disk := w1;
      calls := calls h ++ [LoadAcs (person_request (this h) st d s dl)] |}).
Proof.
  intros H1 Hs Hn. step_get_data. rewrite H1; cbn [this disk calls fst snd].
  rewrite bool_decide_eq_true_2 by exact Hs. cbn [this disk calls fst snd].
  unfold getitem. rewrite (get_loc_None _ _ Hn). reflexivity.
Qed.

(** X8. With [join_household=True], what goes wrong with the household
    table ends the call before any merge: an exception raised by the second
    [load_acs] is passed on unchanged, and a household table without a
    SERIALNO column raises a [KeyError] from the column selection, whose
    message is ['SERIALNO'] not in index when the household table has a
    column that the person table lacks. *)
Theorem get_data_household_failure (st : option (list string)) (d : Q) (s : Z)
    (dl : bool) (h : heap) (data : DataFrame) (w1 w2 : world) (serials : list value)
    (r : result DataFrame) :
  load_acs (person_request (this h) st d s dl) (disk h) = (Ok data, w1) ->
  _survey (this h) = "person" ->
  getitem data "SERIALNO" = Ok serials ->
  load_acs (household_request (this h) st serials dl) w1 = (r, w2) ->
  match r with
  | Raise _ => True
  | Ok hh => "SERIALNO" ∉ columns hh
  end ->
  exists e,
    run st d s true dl h =
    (Raise e,
     {| this := this h; disk := w2;
        calls := calls h ++ [LoadAcs (person_request (this h) st d s dl);
                             LoadAcs (household_request (this h) st serials dl)] |}) /\
    match r with
    | Raise e' => e = e'
    | Ok hh =>
        (exists msg, e = KeyError msg) /\
        ((exists c, c ∈ columns hh /\ c ∉ columns data) ->
         e = KeyError "['SERIALNO'] not in index")
    end.
Proof.
  intros H1 Hs Hser H2 Hr. step_get_data. rewrite H1; cbn [this disk calls fst snd].
  rewrite bool_decide_eq_true_2 by exact Hs. cbn [this disk calls fst snd].
  rewrite Hser; cbn [this disk calls fst snd]. rewrite H2; cbn [this disk calls fst snd].
  rewrite <- !app_assoc. destruct r as [hh|e]; cbn [this disk calls fst snd];
    [|exists e; split; reflexivity].
  fold (household_only data hh).
  set (hc := elements (household_only data hh ∪ list_to_set ["SERIALNO"])).
  assert (Hk : "SERIALNO" ∈ hc) by (apply household_cols_elem_of; left; reflexivity).
  assert (Hnd : NoDup hc) by apply NoDup_elements.
  assert (Hmiss : List.filter (fun c => bool_decide (c ∉ columns hh)) hc = ["SERIALNO"]).
  { apply filter_only; [exact Hnd | exact Hk | apply bool_decide_eq_true; exact Hr |].
    intros c Hc Hne. apply bool_decide_eq_false. intros Hn. apply Hn.
    apply household_cols_elem_of in Hc as [Hc|[Hc _]]; [contradiction | exact Hc]. }
  unfold getitem_columns. rewrite (get_locs_missing hc (columns hh) "SERIALNO" Hk Hr).
  unfold not_in_index. rewrite Hmiss. cbn [this disk calls fst snd].
  eexists. split; [reflexivity|]. split.
  - destruct (decide _); eauto.
  - intros (c & Hc & Hcd).
    assert (Hcin : c ∈ hc) by (apply household_cols_elem_of; right; split; assumption).
    assert (Hne : c <> "SERIALNO") by (intros ->; contradiction).
    destruct (decide (length ["SERIALNO"] = length hc)) as [E|_]; [|reflexivity].
    exfalso. destruct hc as [|a [|b l]]; simpl in E; try discriminate.
    apply list_elem_of_singleton in Hk, Hcin. congruence.
Qed.

(** X9. With [join_household=True], once both tables are loaded and the
    household table has a SERIALNO column, the call returns if and only if
    the number of (person row, household row) pairs with equal serial numbers
    equals the number of person rows; in particular it returns when every
    person row has exactly one household row with its serial number. *)
Theorem get_data_join_returns_iff (st : option (list string)) (d : Q) (s : Z) (dl : bool)
    (h : heap) (data hh : DataFrame) (w1 w2 : world) (serials : list value) :
  load_acs (person_request (this h) st d s dl) (disk h) = (Ok data, w1) ->
  _survey (this h) = "person" ->
  getitem data "SERIALNO" = Ok serials ->
  load_acs (household_request (this h) st serials dl) w1 = (Ok hh, w2) ->
  "SERIALNO" ∈ columns hh ->
  (is_ok (run st d s true dl h).1 = true <->
   sum_list (map (household_matches data hh) (records data)) = len data) /\
  ((forall p, p ∈ records data -> household_matches data hh p = 1) ->
   is_ok (run st d s true dl h).1 = true).
Proof.
  intros H1 Hs Hser H2 Hh.
  assert (Hd : "SERIALNO" ∈ columns data).
  { unfold getitem in Hser. destruct (get_loc "SERIALNO" (columns data)) eqn:E; [|discriminate].
    eapply get_loc_elem_of, E. }
  destruct (join_of_loaded data hh Hd Hh) as (projected & joined & Hproj & Hm & Hlen).
  rewrite (get_data_join_run load_acs st d s dl h data hh projected joined w1 w2 serials
             H1 Hs Hser H2 Hproj Hm).
  cbn [fst]. rewrite Hlen.
  assert (Hiff : is_ok (if bool_decide (sum_list (map (household_matches data hh) (records data))
                                        = len data)
                        then Ok joined
                        else Raise (AssertionError
                                      (Some (lengths_message
                                               (sum_list (map (household_matches data hh)
                                                            (records data))) (len data)))))
                 = true <->
                 sum_list (map (household_matches data hh) (records data)) = len data).
  { destruct (bool_decide _) eqn:E; simpl.
    - apply bool_decide_eq_true in E. tauto.
    - apply bool_decide_eq_false in E. split; [discriminate | contradiction]. }
  split; [exact Hiff|].
  intros Hone. apply Hiff. apply sum_list_ones. exact Hone.
Qed.

(** The calls made by [get_data]: the person load, then, with
    [join_household=True] only, possibly the household load and the merge. *)
Lemma get_data_calls (st : option (list string)) (d : Q) (s : Z) (jh dl : bool) (h : heap) :
  exists new,
    calls (run st d s jh dl h).2 = calls h ++ new /\
    (new = [LoadAcs (person_request (this h) st d s dl)] \/
     jh = true /\ exists serials,
       new = [LoadAcs (person_request (this h) st d s dl);
              LoadAcs (household_request (this h) st serials dl)] \/
       exists l r, new = [LoadAcs (person_request (this h) st d s dl);
                          LoadAcs (household_request (this h) st serials dl);
                          Merge l r]).
Proof.
  step_get_data.
  destruct (load_acs (person_request (this h) st d s dl) (disk h)) as [[data|e] w1];
    cbn [this disk calls fst snd]; [|eexists; split; [reflexivity | left; reflexivity]].
  destruct jh; cbn [this disk calls fst snd];
    [|eexists; split; [reflexivity | left; reflexivity]].
  destruct (bool_decide (_survey (this h) = "person")); cbn [this disk calls fst snd];
    [|eexists; split; [reflexivity | left; reflexivity]].
  destruct (getitem data "SERIALNO") as [serials|e]; cbn [this disk calls fst snd];
    [|eexists; split; [reflexivity | left; reflexivity]].
  destruct (load_acs (household_request (this h) st serials dl) w1) as [[hh|e] w2];
    cbn [this disk calls fst snd];
    [|eexists; split; [rewrite <- app_assoc; reflexivity
                      | right; split; [reflexivity|]; exists serials; left; reflexivity]].
  destruct (getitem_columns hh _) as [projected|e]; cbn [this disk calls fst snd];
    [|eexists; split; [rewrite <- app_assoc; reflexivity
                      | right; split; [reflexivity|]; exists serials; left; reflexivity]].
  destruct (merge data projected "SERIALNO") as [joined|e]; cbn [this disk calls fst snd];
    [destruct (bool_decide (len joined = len data)); cbn [this disk calls fst snd]|];
    (eexists; split; [rewrite <- !app_assoc; reflexivity
                     | right; split; [reflexivity|]; exists serials; right; eauto]).
Qed.

(** X10. On an instance built by [__init__], every request that a call to
    [get_data] sends to [load_acs] carries the constructor's year, root
    directory and horizon, the horizon being '1-Year' or '5-Year', together
    with the call's states and download flag; it asks for the constructor's
    survey or, with [join_household=True] only, for the household survey.
    A call makes at most two loads and one merge, and exactly one load
    without [join_household]. *)
Theorem get_data_requests (survey_year hz sv rd : string) (self : ACSDataSource)
    (st : option (list string)) (d : Q) (s : Z) (jh dl : bool) (h : heap) :
  __init__ survey_year hz sv rd = Ok self ->
  this h = self ->
  exists new,
    calls (run st d s jh dl h).2 = calls h ++ new /\
    length (List.filter is_load new) <= 2 /\
    length (List.filter (fun ev => negb (is_load ev)) new) <= 1 /\
    (jh = false -> new = [LoadAcs (person_request self st d s dl)]) /\
    (forall rq, LoadAcs rq ∈ new ->
       hz ∈ ["1-Year"; "5-Year"] /\ horizon rq = hz /\ year rq = survey_year /\
       root_dir rq = rd /\ states rq = st /\ download rq = dl /\
       (survey rq = sv \/ (jh = true /\ survey rq = "household"))).
Proof.
  intros Hinit Hthis. unfold __init__ in Hinit.
  destruct (bool_decide (hz ∉ ["1-Year"; "5-Year"])) eqn:Hhz; [discriminate|].
  apply bool_decide_eq_false in Hhz. apply dec_stable in Hhz.
  injection Hinit as E. rewrite <- E in Hthis |- *. clear E self.
  destruct (get_data_calls st d s jh dl h) as (new & Hcalls & Hshape).
  exists new. split; [exact Hcalls|]. rewrite Hthis in Hshape.
  assert (HP : forall rq,
             rq = person_request (mkSource survey_year hz sv rd) st d s dl ->
             horizon rq = hz /\ year rq = survey_year /\ root_dir rq = rd /\
             states rq = st /\ download rq = dl /\ survey rq = sv).
  { intros rq ->. simpl. auto 10. }
  assert (HH : forall rq serials,
             rq = household_request (mkSource survey_year hz sv rd) st serials dl ->
             horizon rq = hz /\ year rq = survey_year /\ root_dir rq = rd /\
             states rq = st /\ download rq = dl /\ survey rq = "household").
  { intros rq serials ->. simpl. auto 10. }
  destruct Hshape as [->|[-> [serials [->|(l & r & ->)]]]]; simpl.
  - split; [lia|]. split; [lia|]. split; [reflexivity|].
    intros rq Hin. apply list_elem_of_singleton in Hin. inversion Hin as [E].
    destruct (HP rq E) as (? & ? & ? & ? & ? & ?). auto 10.
  - split; [lia|]. split; [lia|]. split; [discriminate|].
    intros rq Hin. apply elem_of_cons in Hin as [Hin|Hin].
    + inversion Hin as [E]. destruct (HP rq E) as (? & ? & ? & ? & ? & ?). auto 10.
    + apply list_elem_of_singleton in Hin. inversion Hin as [E].
      destruct (HH rq serials E) as (? & ? & ? & ? & ? & ?). auto 10.
  - split; [lia|]. split; [lia|]. split; [discriminate|].
    intros rq Hin. apply elem_of_cons in Hin as [Hin|Hin].
    + inversion Hin as [E]. destruct (HP rq E) as (? & ? & ? & ? & ? & ?). auto 10.
    + apply elem_of_cons in Hin as [Hin|Hin].
      * inversion Hin as [E]. destruct (HH rq serials E) as (? & ? & ? & ? & ? & ?). auto 10.
      * apply list_elem_of_singleton in Hin. discriminate.
Qed.

End GetDataOutcomes.

(** ** The outcomes of [get_data] on stored tables *)

Lemma get_data_first_load_outcome_witness :
  get_data load_stored None 1%Q 0%Z true false
    (start source2018_census (persons2, households_ok))
  = (Raise (OtherError "FileNotFoundError" "census"),
     {| this := source2018_census; disk := (persons2, households_ok);
        calls := [LoadAcs (person_request source2018_census None 1%Q 0%Z false)] |}).
Proof.
  apply (get_data_first_load_outcome load_stored None 1%Q 0%Z true false
           (start source2018_census (persons2, households_ok))
           (Raise (OtherError "FileNotFoundError" "census")) (persons2, households_ok)).
  - reflexivity.
  - right. reflexivity.
Defined.

Lemma get_data_person_without_serialno_witness :
  get_data load_stored None 1%Q 0%Z true false
    (start source2018 (persons_unkeyed, households_ok))
  = (Raise (KeyError "SERIALNO"),
     {| this := source2018; disk := (persons_unkeyed, households_ok);
        calls := [LoadAcs (person_request source2018 None 1%Q 0%Z false)] |}).
Proof.
  apply (get_data_person_without_serialno load_stored None 1%Q 0%Z false
           (start source2018 (persons_unkeyed, households_ok)) persons_unkeyed
           (persons_unkeyed, households_ok)).
  - reflexivity.
  - reflexivity.
  - intros H. repeat (apply elem_of_cons in H as [H|H]; [discriminate|]).
    apply elem_of_nil in H. exact H.
Defined.

Lemma get_data_household_failure_witness :
  get_data load_whole None 1%Q 0%Z true false
    (start source2018 (persons2, households_unkeyed))
  = (Raise (KeyError "['SERIALNO'] not in index"),
     {| this := source2018; disk := (persons2, households_unkeyed);
        calls := [LoadAcs (person_request source2018 None 1%Q 0%Z false);
                  LoadAcs (household_request source2018 None
                             [VInt 101; VInt 101; VInt 205] false)] |}).
Proof.
  destruct (get_data_household_failure load_whole None 1%Q 0%Z false
              (start source2018 (persons2, households_unkeyed)) persons2
              (persons2, households_unkeyed) (persons2, households_unkeyed)
              [VInt 101; VInt 101; VInt 205] (Ok households_unkeyed))
    as (e & Hrun & _ & Hmsg).
  - reflexivity.
  - reflexivity.
  - reflexivity.
  - reflexivity.
  - intros H. repeat (apply elem_of_cons in H as [H|H]; [discriminate|]).
    apply elem_of_nil in H. exact H.
  - rewrite Hrun, Hmsg; [reflexivity|].
    exists "NP". split; [left|].
    intros H. repeat (apply elem_of_cons in H as [H|H]; [discriminate|]).
    apply elem_of_nil in H. exact H.
Defined.

Lemma get_data_join_returns_iff_witness :
  is_ok (get_data load_stored None 1%Q 0%Z true false
           (start source2018 (persons2, households_ok))).1 = true /\
  sum_list (map (household_matches persons2
                   (mkDF (columns households_ok) (take 2 (records households_ok))))
              (records persons2)) = len persons2.
Proof.
  destruct (get_data_join_returns_iff load_stored None 1%Q 0%Z false
              (start source2018 (persons2, households_ok)) persons2
              (mkDF (columns households_ok) (take 2 (records households_ok)))
              (persons2, households_ok) (persons2, households_ok)
              [VInt 101; VInt 101; VInt 205]) as [Hiff Hone].
  - reflexivity.
  - reflexivity.
  - reflexivity.
  - vm_compute. reflexivity.
  - left.
  - assert (Hok := Hone ltac:(intros p Hp;
                              repeat (apply elem_of_cons in Hp as [->|Hp];
                                      [vm_compute; reflexivity|]);
                              apply elem_of_nil in Hp; contradiction)).
    split; [exact Hok | apply Hiff, Hok].
Defined.

Lemma get_data_requests_witness :
  exists new,
    calls (get_data load_stored None 1%Q 0%Z true false
             (start source2018 (persons2, households_ok))).2 = [] ++ new /\
    length (List.filter is_load new) <= 2 /\
    length (List.filter (fun ev => negb (is_load ev)) new) <= 1 /\
    (true = false -> new = [LoadAcs (person_request source2018 None 1%Q 0%Z false)]) /\
    (forall rq, LoadAcs rq ∈ new ->
       "1-Year" ∈ ["1-Year"; "5-Year"] /\ horizon rq = "1-Year" /\ year rq = "2018" /\
       root_dir rq = "data" /\ states rq = None /\ download rq = false /\
       (survey rq = "person" \/ (true = true /\ survey rq = "household"))).
Proof.
  apply (get_data_requests load_stored "2018" "1-Year" "person" "data" source2018
           None 1%Q 0%Z true false (start source2018 (persons2, households_ok))).
  - reflexivity.
  - reflexivity.
Defined.

(** ** Labels *)


Example ACSEmployment_labels_ex :
  target_transform ACSEmployment [VInt 1; VNaN; VInt 6; VInt 1] = [true; false; false; true].
Proof. reflexivity. Qed.

Example getitem_columns_missing_ex :
  getitem_columns households_unkeyed ["HINCP"; "SERIALNO"; "NP"]
  = Raise (KeyError "['SERIALNO'] not in index").
Proof. reflexivity. Qed.

Example getitem_columns_ex :
  getitem_columns households_ok ["HINCP"; "SERIALNO"]
  = Ok (mkDF ["HINCP"; "SERIALNO"]
          [(0%Z, [VInt 52000; VInt 101]); (1%Z, [VInt 18000; VInt 205]);
           (2%Z, [VInt 90000; VInt 307])]).
Proof. reflexivity. Qed.
